(** * SKEMA RAJA auto check-in: a shallow embedding and its properties

    The development follows the layout of the repository:
    - [Js]      the handful of JavaScript notions the sources rely on
                (JSON values, truthiness, [===], [String.includes],
                [Array.slice(-n)], object spread);
    - [Utils]   [src/utils.js]   (holiday list, weekend test);
    - [Checkin] [src/checkin.js] (notification, navigation retry,
                check-in time extraction, page classification);
    - [Server]  [src/server.js]  (flat-file stores and dashboard routes);
    - [Index]   [src/index.js]   (schedules, guarded run, entry points).

    Stateful code is written in explicit state-passing style: a handler
    takes the content of the file it reads and returns the content it
    writes.  Code that talks to the outside world (browser, gateway,
    clock, random source) takes the answers of the outside world as
    arguments and returns the list of events it produced. *)

From Stdlib Require Import ZArith QArith Qcanon Qround String Ascii List Lia Lqa.
From stdpp Require Import base option list gmap strings pretty.

Local Open Scope string_scope.
Local Open Scope list_scope.
Local Open Scope Z_scope.

(** ** JavaScript notions *)

Module Js.

(** A JSON document after [JSON.parse].  Numbers are finite, so they are
    rationals; [-0] and [0] are the same number for [===] and for
    truthiness, which is all the sources do with them. *)
#[warnings="-register-all"]
Inductive value : Type :=
| VNull
| VBool (b : bool)
| VNum (q : Qc)
| VStr (s : string)
| VArr (items : list value)
| VObj (fields : gmap string value).

(** An object is a finite map from property names to values; reading a
    property that is not there gives [undefined], here [None]. *)
Abbreviation obj := (gmap string value).

Definition num (z : Z) : value := VNum (Q2Qc (inject_Z z)).
Definition dec (n : Z) (d : positive) : value := VNum (Q2Qc (Qmake n d)).

(** [ToBoolean]. *)
Definition truthy (v : value) : bool :=
  match v with
  | VNull => false
  | VBool b => b
  | VNum q => negb (Qeq_bool (this q) 0%Q)
  | VStr s => negb (String.eqb s "")
  | VArr _ | VObj _ => true
  end.

Definition truthy_prop (p : option value) : bool :=
  match p with
  | None => false
  | Some v => truthy v
  end.

(** [a === b] between a property of a stored record and a property of a
    freshly parsed request body.  Arrays and objects are compared by
    reference, and the two sides never share a reference. *)
Definition strict_eq_value (a b : value) : bool :=
  match a, b with
  | VNull, VNull => true
  | VBool x, VBool y => Bool.eqb x y
  | VNum x, VNum y => Qc_eq_bool x y
  | VStr x, VStr y => String.eqb x y
  | _, _ => false
  end.

Definition strict_eq (a b : option value) : bool :=
  match a, b with
  | None, None => true
  | Some x, Some y => strict_eq_value x y
  | _, _ => false
  end.

(** [{ ...a, ...b }]: the properties of [b] win. *)
Definition spread (a b : obj) : obj := b ∪ a.

(** [s.includes(needle)]. *)
Fixpoint includes (s needle : string) : bool :=
  if String.prefix needle s then true
  else match s with
       | EmptyString => false
       | String _ rest => includes rest needle
       end.

(** [l.slice(-n)]: the last [n] elements, all of them when there are
    fewer. *)
Definition slice_last {A} (n : nat) (l : list A) : list A :=
  drop (length l - n) l.

(** [l.findIndex(p)], with [None] for [-1]. *)
Fixpoint findIndex {A} (p : A → bool) (l : list A) : option nat :=
  match l with
  | [] => None
  | x :: rest => if p x then Some O else S <$> findIndex p rest
  end.

End Js.

Import Js.

(** ** Programs with effects

    A program reads and updates a state, emits events in order, and either
    returns a value or throws an [Error] (kept as its message). *)

Module Eff.

Inductive outcome (A : Type) : Type :=
| Returned (a : A)
| Thrown (err : string).
Arguments Returned {A} a.
Arguments Thrown {A} err.

Definition prog (S E A : Type) : Type := S → outcome A * S * list E.

Section Combinators.
Context {S E : Type}.

Definition ret {A} (a : A) : prog S E A := fun s => (Returned a, s, []).

Definition bind {A B} (k : A → prog S E B) (p : prog S E A) : prog S E B :=
  fun s =>
    match p s with
    | (Returned a, s1, t1) =>
        match k a s1 with
        | (o, s2, t2) => (o, s2, t1 ++ t2)
        end
    | (Thrown err, s1, t1) => (Thrown err, s1, t1)
    end.

Definition throw {A} (err : string) : prog S E A :=
  fun s => (Thrown err, s, []).

Definition emit (e : E) : prog S E unit := fun s => (Returned tt, s, [e]).

Definition get : prog S E S := fun s => (Returned s, s, []).

Definition modify (f : S → S) : prog S E unit :=
  fun s => (Returned tt, f s, []).

(** [try { p } catch (err) { handler err }]. *)
Definition try_catch {A} (p : prog S E A) (handler : string → prog S E A)
  : prog S E A :=
  fun s =>
    match p s with
    | (Returned a, s1, t1) => (Returned a, s1, t1)
    | (Thrown err, s1, t1) =>
        match handler err s1 with
        | (o, s2, t2) => (o, s2, t1 ++ t2)
        end
    end.

(** [try { p } finally { fin }]: [fin] always runs; when it throws, its
    error replaces the outcome of [p]. *)
Definition try_finally {A} (p : prog S E A) (fin : prog S E unit)
  : prog S E A :=
  fun s =>
    match p s with
    | (o, s1, t1) =>
        match fin s1 with
        | (Returned _, s2, t2) => (o, s2, t1 ++ t2)
        | (Thrown err, s2, t2) => (Thrown err, s2, t1 ++ t2)
        end
    end.

Definition when (b : bool) (p : prog S E unit) : prog S E unit :=
  if b then p else ret tt.
End Combinators.

#[global] Instance prog_ret {S E} : MRet (prog S E) := @ret S E.
#[global] Instance prog_bind {S E} : MBind (prog S E) := @bind S E.

(** [p] keeps the state in [P] and only emits events of [Q]. *)
Definition respects {S E A} (P : S → Prop) (Q : E → Prop) (p : prog S E A) : Prop :=
  ∀ s, P s → P (p s).1.2 ∧ Forall Q (p s).2.

(** [p] and [q] end alike from every state: same outcome, same state;
    the events on the way may differ. *)
Definition same_end {S E A} (p q : prog S E A) : Prop := ∀ s, (p s).1 = (q s).1.

Definition result_of {S E A} (r : outcome A * S * list E) : outcome A := r.1.1.
Definition state_of {S E A} (r : outcome A * S * list E) : S := r.1.2.
Definition trace_of {S E A} (r : outcome A * S * list E) : list E := r.2.

End Eff.

Import Eff.

(** ** src/utils.js *)

Module Utils.

Definition HOLIDAYS : list string :=
  [ "2025-01-01"; "2025-01-29"; "2025-01-30"; "2025-03-29"; "2025-03-30";
    "2025-03-31"; "2025-04-01"; "2025-04-18"; "2025-05-01"; "2025-05-12";
    "2025-05-29"; "2025-06-01"; "2025-06-06"; "2025-06-27"; "2025-08-17";
    "2025-09-05"; "2025-12-25";
    "2026-01-01"; "2026-01-18"; "2026-02-17"; "2026-03-20"; "2026-03-21";
    "2026-04-03"; "2026-05-01"; "2026-05-14"; "2026-05-27"; "2026-06-01";
    "2026-06-17"; "2026-08-17"; "2026-08-26"; "2026-12-25" ].

(** The calendar date of the current instant in the zone [TIMEZONE]
    (Asia/Makassar); both tests below only look at that date. *)
Record date : Type := Date { year : Z; month : Z; day : Z }.

Definition pad (width : nat) (n : Z) : string :=
  let digits := pretty n in
  String.concat "" (replicate (width - String.length digits) "0") +:+ digits.

(** [toLocaleDateString('en-CA')]: [YYYY-MM-DD]. *)
Definition toLocaleDateString_enCA (d : date) : string :=
  pad 4 (year d) +:+ "-" +:+ pad 2 (month d) +:+ "-" +:+ pad 2 (day d).

(** Days between 1970-01-01 and a date of the proleptic Gregorian
    calendar. *)
Definition days_from_epoch (d : date) : Z :=
  let y := if month d <=? 2 then year d - 1 else year d in
  let era := y / 400 in
  let yoe := y - era * 400 in
  let mp := (month d + 9) mod 12 in
  let doy := (153 * mp + 2) / 5 + day d - 1 in
  let doe := yoe * 365 + yoe / 4 - yoe / 100 + doy in
  era * 146097 + doe - 719468.

(** [Date.prototype.getDay]: Sunday is 0, Saturday is 6; 1970-01-01 was
    a Thursday. *)
Definition getDay (d : date) : Z := (days_from_epoch d + 4) mod 7.

Definition array_includes (l : list string) (x : string) : bool :=
  existsb (String.eqb x) l.

Definition isHoliday (today : date) : bool :=
  array_includes HOLIDAYS (toLocaleDateString_enCA today).

Definition isWeekend (today : date) : bool :=
  let day := getDay today in
  (day =? 0) || (day =? 6).

(** The working-day test of the specification: neither [isHoliday] nor
    [isWeekend].  The sources have no function of that name; the guard at
    the top of [runCheckin] in [src/index.js] lets a run proceed exactly
    when both tests are false (see [Index.runCheckin]). *)
Definition isWorkingDay (today : date) : bool :=
  negb (isHoliday today) && negb (isWeekend today).

(** The number of milliseconds [randomDelay(min, max)] waits when
    [Math.random()] returns [r]. *)
Definition randomDelay_ms (min max : Z) (r : Q) : Z :=
  Qfloor (r * inject_Z (max - min + 1)) + min.

End Utils.

(** ** src/checkin.js *)

Module Checkin.

Definition SKEMARAJA_URL : string := "https://skemaraja.kemenhub.go.id/".
Definition FONNTE_API : string := "https://api.fonnte.com/send".

Inductive level : Type := Info | Warn | Error.

Definition is_digit (c : ascii) : bool :=
  let n := nat_of_ascii c in
  (48 <=? n)%nat && (n <=? 57)%nat.

(** [s.replace(/\D/g, '')]. *)
Fixpoint digits_only (s : string) : string :=
  match s with
  | EmptyString => EmptyString
  | String c rest =>
      if is_digit c then String c (digits_only rest) else digits_only rest
  end.

Section WithToString.
(** What a template literal prints for a property, [undefined]
    included; the sources only pass the result on. *)
Variable display : option value → string.

(** *** sendWhatsAppNotification *)

Record notification : Type := Notification {
  user : obj;
  schedule : obj;
  sent_success : bool;
  sent_message : string;
  fonnteToken : option value;
  locationName : option value
}.

(** What the gateway call comes to: [fetch] rejects, [response.json()]
    rejects, or a document is parsed. *)
Inductive gateway_answer : Type :=
| FetchRejects (err : string)
| JsonRejects (err : string)
| Parsed (result : value).

Inductive wa_event : Type :=
| Post (url : string) (authorization : option value) (target message : string)
| WaLog (l : level) (msg : string).



(** [result.key] on a parsed document: reading a property of [null]
    throws, a document that is not an object has none of the
    properties read here. *)
Definition property (result : value) (key : string)
  : prog unit wa_event (option value) :=
  match result with
  | VNull => throw ("Cannot read properties of null (reading '" +:+ key +:+ "')")
  | VObj fields => mret (fields !! key)
  | _ => mret None
  end.

Definition or_else (p : option value) (default : value) : option value :=
  if truthy_prop p then p else Some default.

Definition nl : string := String (ascii_of_nat 10) EmptyString.

Definition waMessage (n : notification) (timeStr : string) : string :=
  (if sent_success n then "✅" else "❌") +:+ " *Check-in SKEMARAJA "
    +:+ (if sent_success n then "BERHASIL" else "GAGAL") +:+ "*" +:+ nl
  +:+ nl
  +:+ "👤 *Nama:* " +:+ display (user n !! "name") +:+ nl
  +:+ "📅 *Jadwal:* " +:+ display (schedule n !! "name") +:+ nl
  +:+ "🕐 *Waktu:* " +:+ timeStr +:+ nl
  +:+ "📍 *Lokasi:* " +:+ display (locationName n) +:+ nl
  +:+ "📱 *Status:* "
    +:+ (if strict_eq (schedule n !! "status_wfh") (Some (VStr "1"))
         then "WFH" else "WFO") +:+ nl
  +:+ nl
  +:+ (if sent_success n then "🎉 Terima kasih sudah absen!"
       else "⚠️ " +:+ sent_message n) +:+ nl
  +:+ nl
  +:+ "_Auto Check-in by SKEMARAJA Puppeteer_".

(** [timeStr] is the clock in the id-ID locale; [answer] is what the
    one gateway call comes to, should it be made. *)
Definition sendWhatsAppNotification
    (n : notification) (timeStr : string) (answer : gateway_answer)
  : prog unit wa_event unit :=
  if negb (truthy_prop (user n !! "phone")) || negb (truthy_prop (fonnteToken n))
  then mret tt
  else
    phone ← match user n !! "phone" with
            | Some (VStr s) => mret (digits_only s)
            | _ => throw "user.phone.replace is not a function"
            end;
    let text := waMessage n timeStr in
    try_catch
      (emit (Post FONNTE_API (fonnteToken n) phone text);;
       result ← match answer with
                | FetchRejects err => throw err
                | JsonRejects err => throw err
                | Parsed result => mret result
                end;
       status ← property result "status";
       if truthy_prop status
       then emit (WaLog Info ("📱 WhatsApp sent to " +:+ display (user n !! "name")))
       else
         reason ← property result "reason";
         emit (WaLog Warn ("📱 WhatsApp failed: "
                           +:+ display (or_else reason (VStr "Unknown error")))))
      (fun err => emit (WaLog Error ("📱 Fonnte error: " +:+ err))).

(** The level of the one line logged once the request was made: an
    error when the call or the reading of its answer throws, a
    warning when the answer has no truthy [status]. *)
Definition logged_level (answer : gateway_answer) : level :=
  match answer with
  | FetchRejects _ | JsonRejects _ => Error
  | Parsed VNull => Error
  | Parsed (VObj fields) => if truthy_prop (fields !! "status") then Info else Warn
  | Parsed _ => Warn
  end.

(** *** performCheckin *)

Record config : Type := Config {
  nip : option value;
  password : option value;
  status : option value;
  shift : option value;
  latitude : option value;
  longitude : option value;
  headless : bool;
  slowMo : Z
}.

(** The calls into the browser, in the order of the source; each may
    reject. *)
Inductive action : Type :=
| Launch | NewPage | SetViewport | OverridePermissions | SetGeolocation
| SetUserAgent | SetExtraHTTPHeaders
| Goto (call : nat)
| TriggerGeolocation | WaitForNipInput | ReadFormTitle
| MouseMove | QueryNip | ClickNip | TypeNip
| QueryPassword | ClickPassword | TypePassword
| SelectStatus | ClickShift | CheckShift
| WaitForLocation | SetLocation | ClickSubmit | WaitForNavigation
| ReadContent | ReadTitle | EvaluateTable | Close.

Inductive event : Type :=
| Did (a : action)
| Log (l : level) (msg : string)
| Timeout (ms : Z)
| RandomDelay (min max : Z)
| Screenshot (prefix : string).

(** The rows of a table body, each row the text of its cells. *)
Definition table : Type := list (list string).

(** What the page shows after the form was submitted. *)
Record page_view : Type := PageView {
  content : string;
  title : string;
  url : string;
  absensi_table : option table;     (* '#absensi table' *)
  bordered_table : option table     (* 'table.table-bordered' *)
}.

(** The answers of the outside world during one attempt. *)
Record world : Type := World {
  rejects : action → option string;
  form_url : string;       (* page.url() when the form is missing *)
  form_title : string;
  view : page_view;
  witaHour : Z;            (* parseInt of the hour in Asia/Makassar *)
  witaClock : string       (* hh.mm.ss in Asia/Makassar, id-ID *)
}.

(** [browser] and [page] are [null] until set. *)
Record handles : Type := Handles { browser : bool; page : bool }.

Record checkin_result : Type := Result {
  success : bool;
  message : string;
  checkinTime : option string
}.

Abbreviation step := (prog handles event).

Section WithWorld.
Variable w : world.

Definition act (a : action) : step unit :=
  fun h =>
    match rejects w a with
    | Some err => (Thrown err, h, [Did a])
    | None => (Returned tt, h, [Did a])
    end.

Definition log (l : level) (msg : string) : step unit := emit (Log l msg).

(** [saveScreenshot] catches its own errors. *)
Definition saveScreenshot (prefix : string) : step unit :=
  emit (Screenshot prefix).

Definition randomDelay (min max : Z) : step unit :=
  emit (RandomDelay min max).

(** The navigation loop: [retries] counts down from 3, [call] numbers
    the calls of [page.goto]. *)
Fixpoint navigate (retries call : nat) : step unit :=
  match retries with
  | O => mret tt
  | S remaining =>
      try_catch (act (Goto call))
        (fun navError =>
           if (remaining =? 0)%nat then throw navError
           else
             log Warn ("⚠️ Navigation failed, retrying (" +:+ pretty remaining
                       +:+ " left)...");;
             emit (Timeout 5000);;
             navigate remaining (S call))
  end.

Definition randomMouseMove : step unit :=
  act MouseMove;; randomDelay 100 300;;
  act MouseMove;; randomDelay 100 300;;
  act MouseMove;; randomDelay 100 300.

(** Column of the results table for the hour: 1 Pagi, 2 Siang,
    3 Sore. *)
Definition sessionColumn (hour : Z) : nat :=
  if (12 <=? hour) && (hour <? 16) then 2%nat
  else if 16 <=? hour then 3%nat
  else 1%nat.

Definition is_space (c : ascii) : bool :=
  let n := nat_of_ascii c in
  (n =? 32)%nat || ((9 <=? n)%nat && (n <=? 13)%nat).

Fixpoint trim_start (s : string) : string :=
  match s with
  | String c rest => if is_space c then trim_start rest else s
  | EmptyString => EmptyString
  end.

Fixpoint trim_end (s : string) : string :=
  match s with
  | EmptyString => EmptyString
  | String c rest =>
      match trim_end rest with
      | EmptyString => if is_space c then EmptyString else String c EmptyString
      | kept => String c kept
      end
  end.

(** [textContent.trim()], for the white space of ASCII. *)
Definition trim (s : string) : string := trim_end (trim_start s).

(** [/(\d{1,2}:\d{2}:\d{2})/] anchored at the start of [s]: two digits
    for the hour first, then one. *)
Definition time_at (s : string) : option string :=
  let colon := ":"%char in
  match s with
  | String h1 (String h2 (String c1 (String m1 (String m2
      (String c2 (String s1 (String s2 _))))))) =>
      if is_digit h1 && is_digit h2 && Ascii.eqb c1 colon
         && is_digit m1 && is_digit m2 && Ascii.eqb c2 colon
         && is_digit s1 && is_digit s2
      then Some (String.substring 0 8 s)
      else if is_digit h1 && Ascii.eqb h2 colon
              && is_digit c1 && is_digit m1 && Ascii.eqb m2 colon
              && is_digit c2 && is_digit s1
      then Some (String.substring 0 7 s)
      else None
  | String h1 (String c1 (String m1 (String m2
      (String c2 (String s1 (String s2 EmptyString)))))) =>
      if is_digit h1 && Ascii.eqb c1 colon
         && is_digit m1 && is_digit m2 && Ascii.eqb c2 colon
         && is_digit s1 && is_digit s2
      then Some s
      else None
  | _ => None
  end.

(** [cellText.match(...)]: the leftmost match. *)
Fixpoint timeMatch (s : string) : option string :=
  match time_at s with
  | Some found => Some found
  | None =>
      match s with
      | EmptyString => None
      | String _ rest => timeMatch rest
      end
  end.

(** The function evaluated in the page. *)
Definition readTable (v : page_view) (colIndex : nat) : option string :=
  match (match absensi_table v with
         | Some t => Some t
         | None => bordered_table v
         end) with
  | None => None
  | Some rows =>
      match rows with
      | [] => None
      | firstRow :: _ =>
          match firstRow !! colIndex with
          | None => None
          | Some cell => timeMatch (trim cell)
          end
      end
  end.

(** [witaTime.replace(/\./g, ':')]. *)
Fixpoint dots_to_colons (s : string) : string :=
  match s with
  | EmptyString => EmptyString
  | String c rest =>
      String (if Ascii.eqb c "."%char then ":"%char else c) (dots_to_colons rest)
  end.

(** The [try]/[catch] around the extraction of the check-in time. *)
Definition extractCheckinTime : step (option string) :=
  try_catch
    (let hour := witaHour w in
     let column := sessionColumn hour in
     act EvaluateTable;;
     mret (readTable (view w) column))
    (fun _ => mret (Some (dots_to_colons (witaClock w)))).

Definition nonempty (t : option string) : option string :=
  match t with
  | Some s => if String.eqb s "" then None else Some s
  | None => None
  end.

Definition success_markers (pageContent pageUrl : string) : bool :=
  includes pageContent "Berhasil" || includes pageContent "berhasil"
  || includes pageContent "Sukses" || includes pageContent "sukses"
  || includes pageContent "Selamat" || includes pageContent "tercatat"
  || includes pageContent "Data Absensi" || includes pageContent "Check Out"
  || includes pageContent "MITRA" || includes pageUrl "/home"
  || includes pageUrl "/dashboard".

Definition already_markers (pageContent : string) : bool :=
  includes pageContent "sudah absen" || includes pageContent "Sudah Absen"
  || includes pageContent "sudah tercatat" || includes pageContent "sudah melakukan".

Definition invalid_markers (pageContent : string) : bool :=
  includes pageContent "salah" || includes pageContent "Salah"
  || includes pageContent "invalid" || includes pageContent "Invalid".

Definition early_markers (pageContent : string) : bool :=
  includes pageContent "belum waktunya" || includes pageContent "tidak dalam jam".

Definition location_markers (pageContent : string) : bool :=
  includes pageContent "lokasi" && includes pageContent "tidak".

(** The chain of tests on the submitted page. *)
Definition classify (pageContent pageTitle pageUrl : string)
    (time : option string) : step checkin_result :=
  if success_markers pageContent pageUrl then
    mret (Result true
            (match nonempty time with
             | Some t => "Check-in berhasil! (" +:+ t +:+ ")"
             | None => "Check-in berhasil!"
             end) time)
  else if already_markers pageContent then
    mret (Result true
            (match nonempty time with
             | Some t => "Sudah check-in (" +:+ t +:+ ")"
             | None => "Sudah check-in sebelumnya"
             end) time)
  else if invalid_markers pageContent then
    mret (Result false "NIP atau Password salah" None)
  else if early_markers pageContent then
    mret (Result false "Belum waktunya check-in" None)
  else if location_markers pageContent then
    mret (Result false "Masalah lokasi/koordinat" None)
  else
    saveScreenshot "unknown_result";;
    mret (Result false ("Response tidak dikenali: " +:+ pageTitle) None).

(** *** The classification as the specification words it

    An ordered list of keyword groups, each with its outcome; the
    first group that matches decides, and a page that matches none
    is not recognised. *)

Inductive page_class : Type :=
| Succeeded | AlreadySubmitted | InvalidCredentials | TooEarly
| LocationProblem | Unrecognized.

Definition outcome_of (c : page_class) (pageTitle : string)
    (time : option string) : checkin_result :=
  match c with
  | Succeeded =>
      Result true
        (match nonempty time with
         | Some t => "Check-in berhasil! (" +:+ t +:+ ")"
         | None => "Check-in berhasil!"
         end) time
  | AlreadySubmitted =>
      Result true
        (match nonempty time with
         | Some t => "Sudah check-in (" +:+ t +:+ ")"
         | None => "Sudah check-in sebelumnya"
         end) time
  | InvalidCredentials => Result false "NIP atau Password salah" None
  | TooEarly => Result false "Belum waktunya check-in" None
  | LocationProblem => Result false "Masalah lokasi/koordinat" None
  | Unrecognized => Result false ("Response tidak dikenali: " +:+ pageTitle) None
  end.

Fixpoint first_match {X} (groups : list (page_class * (X → bool))) (x : X)
  : page_class :=
  match groups with
  | [] => Unrecognized
  | (c, matches) :: rest => if matches x then c else first_match rest x
  end.

(** The success keywords looked for in the text of the page. *)
Definition success_keywords (pageContent : string) : bool :=
  includes pageContent "Berhasil" || includes pageContent "berhasil"
  || includes pageContent "Sukses" || includes pageContent "sukses"
  || includes pageContent "Selamat" || includes pageContent "tercatat"
  || includes pageContent "Data Absensi" || includes pageContent "Check Out"
  || includes pageContent "MITRA".

(** The groups over the text of the page alone. *)
Definition keyword_groups : list (page_class * (string → bool)) :=
  [ (Succeeded, success_keywords);
    (AlreadySubmitted, already_markers);
    (InvalidCredentials, invalid_markers);
    (TooEarly, early_markers);
    (LocationProblem, location_markers) ].

(** The groups over the text and the address of the page: the
    success group also holds on the home and dashboard pages. *)
Definition page_groups : list (page_class * (string * string → bool)) :=
  [ (Succeeded, fun p => success_markers p.1 p.2);
    (AlreadySubmitted, fun p => already_markers p.1);
    (InvalidCredentials, fun p => invalid_markers p.1);
    (TooEarly, fun p => early_markers p.1);
    (LocationProblem, fun p => location_markers p.1) ].

(** The check-in time as the specification words it: the time read
    from the table, and the current time on any failure to read
    one. *)
Definition time_or_now : option string :=
  match (match rejects w EvaluateTable with
         | Some _ => None
         | None => readTable (view w) (sessionColumn (witaHour w))
         end) with
  | Some found => Some found
  | None => Some (dots_to_colons (witaClock w))
  end.

(** [t] has the shape of a clock time: one or two digits, then twice
    a colon and two digits, and nothing else. *)
Definition clock_shaped (t : string) : bool :=
  let colon := ":"%char in
  match t with
  | String h (String c1 (String m1 (String m2
      (String c2 (String s1 (String s2 EmptyString)))))) =>
      is_digit h && Ascii.eqb c1 colon
      && is_digit m1 && is_digit m2 && Ascii.eqb c2 colon
      && is_digit s1 && is_digit s2
  | String h1 (String h2 (String c1 (String m1 (String m2
      (String c2 (String s1 (String s2 EmptyString))))))) =>
      is_digit h1 && is_digit h2 && Ascii.eqb c1 colon
      && is_digit m1 && is_digit m2 && Ascii.eqb c2 colon
      && is_digit s1 && is_digit s2
  | _ => false
  end.

Definition status_label (status : option value) : string :=
  if strict_eq status (Some (VStr "1")) then "WFH"
  else if strict_eq status (Some (VStr "2")) then "WFO" else "DL".

(** The body of the outer [try]. *)
Definition attempt (c : config) : step checkin_result :=
  log Info "🌐 Launching browser...";;
  act Launch;;
  modify (fun h => Handles true (page h));;
  act NewPage;;
  modify (fun h => Handles (browser h) true);;
  act SetViewport;;
  log Info ("📍 Granting geolocation permission for " +:+ SKEMARAJA_URL);;
  act OverridePermissions;;
  log Info ("📍 Setting geolocation: " +:+ display (latitude c) +:+ ", "
            +:+ display (longitude c));;
  act SetGeolocation;;
  act SetUserAgent;;
  act SetExtraHTTPHeaders;;
  log Info "🔗 Navigating to SKEMA RAJA...";;
  navigate 3 0;;
  randomDelay 1000 2000;;
  saveScreenshot "page_loaded";;
  log Info "📸 Screenshot taken after page load";;
  log Info "📍 Triggering geolocation in browser...";;
  try_catch (act TriggerGeolocation)
    (fun err => log Warn ("⚠️ Geolocation trigger warning: " +:+ err));;
  randomDelay 2000 3000;;
  saveScreenshot "after_geolocation";;
  try_catch
    (act WaitForNipInput;; log Info "📝 Login form detected")
    (fun _ =>
       saveScreenshot "form_not_found";;
       act ReadFormTitle;;
       log Error ("❌ Form not found. URL: " +:+ form_url w +:+ ", Title: "
                  +:+ form_title w);;
       throw ("Form login tidak ditemukan. URL: " +:+ form_url w));;
  randomMouseMove;;
  log Info "✏️ Filling NIP...";;
  act QueryNip;; act ClickNip;;
  randomDelay 200 500;;
  act TypeNip;;
  randomDelay 500 1000;;
  log Info "🔑 Filling Password...";;
  act QueryPassword;; act ClickPassword;;
  randomDelay 200 500;;
  act TypePassword;;
  randomDelay 500 1000;;
  log Info ("📋 Selecting status: " +:+ status_label (status c));;
  act SelectStatus;;
  randomDelay 300 700;;
  when (strict_eq (status c) (Some (VStr "2")))
    (log Info ("⏰ Selecting shift: " +:+ display (shift c));;
     try_catch (act ClickShift) (fun _ => act CheckShift));;
  randomDelay 500 1000;;
  log Info "📍 Waiting for geolocation...";;
  try_catch (act WaitForLocation)
    (fun _ => log Warn "⚠️ Geolocation not captured automatically, setting manually...");;
  act SetLocation;;
  randomDelay 500 1000;;
  log Info "🚀 Submitting form...";;
  act ClickSubmit;;
  try_catch (act WaitForNavigation) (fun _ => mret tt);;
  randomDelay 2000 3000;;
  act ReadContent;;
  act ReadTitle;;
  time ← extractCheckinTime;
  classify (content (view w)) (title (view w)) (url (view w)) time.

(** [try { ... } catch (error) { ... throw error } finally { ... }]. *)
Definition performCheckin (c : config) : step checkin_result :=
  try_finally
    (try_catch (attempt c)
       (fun error =>
          log Error ("❌ Browser error: " +:+ error);;
          h ← get;
          when (page h) (saveScreenshot "error");;
          throw error))
    (h ← get;
     when (browser h) (act Close;; log Info "🔒 Browser closed")).

Definition start : handles := Handles false false.

(** The browser starts and is set up without an error, and closes
    without one. *)
Definition browser_sound : Prop :=
  rejects w Launch = None ∧ rejects w NewPage = None
  ∧ rejects w SetViewport = None ∧ rejects w OverridePermissions = None
  ∧ rejects w SetGeolocation = None ∧ rejects w SetUserAgent = None
  ∧ rejects w SetExtraHTTPHeaders = None ∧ rejects w Close = None.

End WithWorld.
End WithToString.

(** [getRandomTypingDelay()], when [Math.random()] returns [r]. *)
Definition getRandomTypingDelay (r : Q) : Z := Qfloor (r * 100) + 50.

Definition is_close (e : event) : bool :=
  match e with Did Close => true | _ => false end.

Definition screenshots (t : list event) : list string :=
  omap (fun e => match e with Screenshot prefix => Some prefix | _ => None end) t.

(** The steps whose failure the attempt catches and passes over: the
    geolocation trigger, the wait for the location field and the wait for
    the navigation after the form was sent. *)
Definition tolerated (a : action) : bool :=
  match a with
  | TriggerGeolocation | WaitForLocation | WaitForNavigation => true
  | _ => false
  end.

(** The same world, in which the tolerated steps succeed. *)
Definition forgiving (w : world) : world :=
  World (fun a => if tolerated a then None else rejects w a)
        (form_url w) (form_title w) (view w) (witaHour w) (witaClock w).

End Checkin.

(** ** The processes and their surroundings *)

Module Runtime.

(** A flat file: missing, present but failing to read or parse, or
    holding a parsed document.  Documents of the wrong shape (a roster
    that is not an array of objects) are not modelled. *)
Inductive file (A : Type) : Type :=
| Absent
| Unreadable (err : string)
| Stored (a : A).
Arguments Absent {A}.
Arguments Unreadable {A} err.
Arguments Stored {A} a.

(** The array a file holds, empty when there is none to read. *)
Definition contents {A} (f : file (list A)) : list A :=
  match f with
  | Stored l => l
  | _ => []
  end.

Inductive event : Type :=
| Logger (l : Checkin.level) (msg : string)
| Console (msg : string)
| Sleep (ms : Q)
| Directory (kodeKantor : string)
| Browser (attempt : nat) (e : Checkin.event)
| Gateway (e : Checkin.wa_event).

(** One entry of the [results] array of a scheduled run. *)
Record run_result : Type := RunResult {
  r_nip : option value;
  r_name : option value;
  r_success : bool;
  r_message : string;
  r_checkinTime : option string
}.

(** The answers of the outside world to a process. *)
Record world : Type := World {
  today : Utils.date;               (* the date in Asia/Makassar *)
  hour : Z;                         (* getWitaTime().getHours() *)
  minute : Z;
  clock : string;                   (* the time of day, id-ID *)
  clock_after : Q → string;         (* the same, so many ms later *)
  iso : string;                     (* new Date().toISOString() *)
  random : nat → Q;                 (* the successive Math.random() *)
  browser_world : nat → Checkin.world;       (* per attempt *)
  gateway : nat → Checkin.gateway_answer;    (* per notification *)
  directory : string + list obj     (* fetchPegawaiFromAPI: error or results *)
}.

(** What a process holds and the files it shares. *)
Record machine : Type := Machine {
  draws : nat;
  attempts : nat;
  sends : nat;
  results : list run_result;
  config_file : file obj;
  users_file : file (list obj);
  logs_file : file (list obj)
}.

Definition boot (c : file obj) (u l : file (list obj)) : machine :=
  Machine 0 0 0 [] c u l.

(** The process after one more call of [Math.random()]. *)
Definition drawn (m : machine) : machine :=
  Machine (S (draws m)) (attempts m) (sends m) (results m)
          (config_file m) (users_file m) (logs_file m).



Definition is_directory (e : event) : bool :=
  match e with Directory _ => true | _ => false end.

(** The line a run logs when it stops at the working-day guard. *)
Definition is_skip (e : event) : bool :=
  match e with
  | Logger Checkin.Info msg => String.prefix "⏭️ Skipping: " msg
  | _ => false
  end.

Definition is_gateway (e : event) : bool :=
  match e with Gateway _ => true | _ => false end.

Abbreviation run := (prog machine event).

Section WithToString.
Variable display : option value → string.
Variable w : world.

Definition logger (l : Checkin.level) (msg : string) : run unit :=
  emit (Logger l msg).

(** [Math.random()]. *)
Definition draw : run Q :=
  fun m => (Returned (random w (draws m)), drawn m, []).

(** [await new Promise(r => setTimeout(r, ms))]. *)
Definition sleep (ms : Q) : run unit := emit (Sleep ms).

Definition push (r : run_result) : run unit :=
  modify (fun m =>
    Machine (draws m) (attempts m) (sends m) (results m ++ [r])
            (config_file m) (users_file m) (logs_file m)).

(** [await performCheckin(c)], in a browser of its own. *)
Definition performCheckin (c : Checkin.config) : run Checkin.checkin_result :=
  fun m =>
    let k := attempts m in
    match Checkin.performCheckin display (browser_world w k) c Checkin.start with
    | (o, _, t) =>
        (o,
         Machine (draws m) (S k) (sends m) (results m)
                 (config_file m) (users_file m) (logs_file m),
         Browser k <$> t)
    end.

(** [await sendWhatsAppNotification(n)]. *)
Definition sendWhatsAppNotification (n : Checkin.notification) : run unit :=
  fun m =>
    let k := sends m in
    match Checkin.sendWhatsAppNotification display n (clock w) (gateway w k) tt with
    | (o, _, t) =>
        (o,
         Machine (draws m) (attempts m) (S k) (results m)
                 (config_file m) (users_file m) (logs_file m),
         Gateway <$> t)
    end.

(** [Math.round] of a number that is not negative. *)
Definition round (q : Q) : Z := Qfloor (q + (1 # 2)).

(** [a || b] on properties. *)
Definition or_prop (a b : option value) : option value :=
  if truthy_prop a then a else b.

(** [{ ...o, key: p }] as [JSON.stringify] keeps it: a property that
    is [undefined] is not written. *)
Definition with_prop (key : string) (p : option value) (o : obj) : obj :=
  match p with
  | Some v => <[key := v]> o
  | None => delete key o
  end.
End WithToString.

End Runtime.

Import Runtime.

(** ** src/server.js: stores and dashboard routes *)

Module Server.

(** The body of the JSON responses of the routes below. *)
Record response : Type := Response { success : bool; message : string }.

Definition schedule_entry (name : string) (sh sm eh em : Z) : value :=
  VObj (list_to_map
    [("name", VStr name); ("startHour", num sh); ("startMinute", num sm);
     ("endHour", num eh); ("endMinute", num em); ("enabled", VBool true)]).

Definition DEFAULT_CONFIG : obj :=
  list_to_map
    [("kodeKantor", VStr "004036057000000");
     ("status", VStr "2");
     ("shift", VStr "1");
     ("latitude", dec 537831 1000000);
     ("longitude", dec 123058388 1000000);
     ("locationName", VStr "KSOP Gorontalo");
     ("timezone", VStr "Asia/Makassar");
     ("fonnteAccountToken", VStr "");
     ("fonnteToken", VStr "");
     ("fonnteDeviceNumber", VStr "");
     ("fonnteDeviceName", VStr "");
     ("schedules", VArr [schedule_entry "Pagi" 7 0 8 0;
                         schedule_entry "Siang" 12 5 13 0;
                         schedule_entry "Sore" 17 0 18 0])].

Definition loadConfig (f : file obj) : obj :=
  match f with
  | Stored stored => spread DEFAULT_CONFIG stored
  | _ => DEFAULT_CONFIG
  end.

Definition loadUsers (f : file (list obj)) : list obj :=
  match f with
  | Stored users => users
  | _ => []
  end.

Definition loadLogs (f : file (list obj)) : list obj :=
  match f with
  | Stored logs => slice_last 100 logs
  | _ => []
  end.

(** [{ ...log, timestamp: now }]. *)
Definition stamp (now : string) (log : obj) : obj :=
  <["timestamp" := VStr now]> log.

(** [addLog(log)]; [now] is [new Date().toISOString()]. *)
Definition addLog (now : string) (log : obj) (f : file (list obj))
  : file (list obj) :=
  let logs := loadLogs f ++ [stamp now log] in
  Stored (slice_last 100 logs).


(** [u.nip]. *)
Definition nip_of (u : obj) : option value := u !! "nip".

Definition same_nip (body : obj) (u : obj) : bool :=
  strict_eq (nip_of u) (nip_of body).


(** [app.post('/api/users')]; [now] is [new Date().toISOString()]. *)
Definition post_users (now : string) (f : file (list obj)) (body : obj)
  : file (list obj) * response :=
  let users := loadUsers f in
  let users' :=
    match findIndex (same_nip body) users with
    | Some index => alter (fun u => spread u body) index users
    | None =>
        users ++ [<["createdAt" := VStr now]> (<["enabled" := VBool true]> body)]
    end in
  (Stored users', Response true "User saved").

(** [app.delete('/api/users')]. *)
Definition delete_users (f : file (list obj)) (body : obj)
  : file (list obj) * response :=
  let users := List.filter (fun u => negb (same_nip body u)) (loadUsers f) in
  (Stored users, Response true "User deleted").

(** [app.post('/api/users/toggle')]: [find] returns the first match, the
    assignment updates it inside [users], and the file is written only
    in that case. *)
Definition post_users_toggle (f : file (list obj)) (body : obj)
  : file (list obj) * response :=
  let users := loadUsers f in
  let f' :=
    match findIndex (same_nip body) users with
    | Some index =>
        Stored (alter (fun user =>
                         <["enabled" := VBool (negb (truthy_prop (user !! "enabled")))]> user)
                      index users)
    | None => f
    end in
  (f', Response true "User toggled").

(** [app.delete('/api/users/all')]. *)
Definition delete_users_all (f : file (list obj)) : file (list obj) * response :=
  (Stored [], Response true "All users deleted").

(** [app.delete('/api/logs')]. *)
Definition delete_logs (f : file (list obj)) : file (list obj) * response :=
  (Stored [], Response true "Logs cleared").

(** A run of appends, oldest first, each with the clock reading it was
    stamped with. *)
Definition addLogs (entries : list (string * obj)) (f : file (list obj))
  : file (list obj) :=
  fold_left (fun acc e => addLog e.1 e.2 acc) entries f.

Section WithToString.
Variable display : option value → string.
Variable w : world.

Definition getScheduleName : string :=
  let totalMinutes := hour w * 60 + minute w in
  if (420 <=? totalMinutes) && (totalMinutes <? 480) then "Pagi"
  else if (720 <=? totalMinutes) && (totalMinutes <? 780) then "Siang"
  else if (1020 <=? totalMinutes) && (totalMinutes <? 1080) then "Sore"
  else if hour w <? 12 then "Pagi"
  else if hour w <? 16 then "Siang"
  else "Sore".

(** [addLog] on the log file of the process. *)
Definition log (entry : obj) : run unit :=
  modify (fun m =>
    Machine (draws m) (attempts m) (sends m) (results m)
            (config_file m) (users_file m) (addLog (iso w) entry (logs_file m))).

Definition entry (type : string) (user : option value) (message : string) : obj :=
  with_prop "user" user (<["type" := VStr type]> {["message" := VStr message]}).

Definition time_value (t : option string) : option value :=
  match t with
  | Some s => Some (VStr s)
  | None => Some VNull
  end.

(** The body of the loop of [runCheckin] for the user at index [i] of
    [n]. *)
Definition checkinUser (config : obj) (schedule : string) (i n : nat) (user : obj)
  : run unit :=
  let who := or_prop (user !! "name") (user !! "nip") in
  try_catch
    (r ← draw w;
     let delay := (r * 30000)%Q in
     when (negb (Qle_bool delay 1000)) (sleep delay);;
     log (entry "info" who ("Memulai check-in " +:+ schedule +:+ "..."));;
     result ← performCheckin display w
       (Checkin.Config (user !! "nip") (user !! "password")
          (config !! "status") (config !! "shift")
          (config !! "latitude") (config !! "longitude") true 50);
     let logMessage :=
       if Checkin.success result then
         match Checkin.nonempty (Checkin.checkinTime result) with
         | Some t => "Telah melakukan check-in " +:+ schedule +:+ " pukul " +:+ t
         | None => "Check-in " +:+ schedule +:+ " berhasil!"
         end
       else "Gagal check-in " +:+ schedule +:+ ": " +:+ Checkin.message result in
     log (<["schedule" := VStr schedule]>
            (with_prop "checkinTime"
               (if Checkin.success result
                then time_value (Checkin.checkinTime result) else None)
               (entry (if Checkin.success result then "success" else "error")
                      who logMessage)));;
     when (truthy_prop (config !! "fonnteToken") && truthy_prop (user !! "phone"))
       (let hello := "Halo "
                     +:+ display (or_prop (user !! "name") (Some (VStr "Bapak/Ibu")))
                     +:+ "," +:+ Checkin.nl +:+ Checkin.nl in
        let waMessage :=
          if Checkin.success result
          then "✅ *SKEMA RAJA*" +:+ Checkin.nl +:+ Checkin.nl +:+ hello
               +:+ logMessage +:+ Checkin.nl +:+ Checkin.nl
               +:+ "📍 Lokasi: " +:+ display (config !! "locationName")
          else "❌ *SKEMA RAJA*" +:+ Checkin.nl +:+ Checkin.nl +:+ hello
               +:+ logMessage +:+ Checkin.nl +:+ Checkin.nl
               +:+ "Silakan cek manual di skemaraja.kemenhub.go.id" in
        sendWhatsAppNotification display w
          (Checkin.Notification user
             (with_prop "status_wfh" (config !! "status") {["name" := VStr schedule]})
             (Checkin.success result) waMessage
             (config !! "fonnteToken") (config !! "locationName")));;
     when (i <? n - 1)%nat
       (r' ← draw w; sleep (3000 + r' * 5000)%Q))
    (fun error =>
       log (entry "error" who ("Gagal check-in " +:+ schedule +:+ ": " +:+ error))).

Fixpoint checkinUsers (config : obj) (schedule : string) (i n : nat)
    (users : list obj) : run unit :=
  match users with
  | [] => mret tt
  | user :: rest =>
      checkinUser config schedule i n user;;
      checkinUsers config schedule (S i) n rest
  end.

(** [runCheckin(users, config, scheduleName)] of the dashboard. *)
Definition runCheckin (users : list obj) (config : obj) (scheduleName : string)
  : run unit :=
  let schedule :=
    if String.eqb scheduleName "manual" then getScheduleName else scheduleName in
  let n := pretty (length users) in
  log (entry "info" None
         ("Memulai check-in " +:+ schedule +:+ " untuk " +:+ n +:+ " user"));;
  checkinUsers config schedule 0 (length users) users;;
  log (entry "info" None
         ("Check-in " +:+ schedule +:+ " selesai untuk " +:+ n +:+ " user")).

Definition enabled_user (u : obj) : bool :=
  truthy_prop (u !! "enabled") && truthy_prop (u !! "nip")
  && truthy_prop (u !! "password").

(** [app.post('/api/trigger')]: the run is started in the background
    and its rejection goes to the console. *)
Definition post_trigger : run response :=
  m ← get;
  let config := loadConfig (config_file m) in
  let users := List.filter enabled_user (loadUsers (users_file m)) in
  if (length users =? 0)%nat
  then mret (Response false "No enabled users found")
  else
    try_catch (runCheckin users config "manual")
      (fun error => emit (Console error));;
    mret (Response true
            ("Check-in started for " +:+ pretty (length users) +:+ " users")).

(** What [app.post('/api/checkin')] answers: the result of the attempt
    with the schedule and the logged message, or the failure. *)
Record checkin_response : Type := CheckinResponse {
  c_success : bool;
  c_message : string;
  c_checkinTime : option string;
  c_schedule : option value;
  c_formattedMessage : option string
}.

(** [app.post('/api/checkin')]: one attempt for the credentials of the
    body. *)
Definition post_checkin (body : obj) : run checkin_response :=
  m ← get;
  let config := loadConfig (config_file m) in
  let nip := body !! "nip" in
  let password := body !! "password" in
  let schedule := or_prop (body !! "scheduleName") (Some (VStr getScheduleName)) in
  try_catch
    (log (entry "info" nip ("Memulai check-in " +:+ display schedule +:+ "..."));;
     result ← performCheckin display w
       (Checkin.Config nip password (config !! "status") (config !! "shift")
          (config !! "latitude") (config !! "longitude") true 50);
     let logMessage :=
       if Checkin.success result then
         match Checkin.nonempty (Checkin.checkinTime result) with
         | Some t => "Telah melakukan check-in " +:+ display schedule +:+ " pukul " +:+ t
         | None => "Check-in " +:+ display schedule +:+ " berhasil!"
         end
       else "Gagal check-in " +:+ display schedule +:+ ": " +:+ Checkin.message result in
     log (with_prop "schedule" schedule
            (with_prop "checkinTime"
               (if Checkin.success result
                then time_value (Checkin.checkinTime result) else None)
               (entry (if Checkin.success result then "success" else "error")
                      nip logMessage)));;
     mret (CheckinResponse (Checkin.success result) (Checkin.message result)
             (Checkin.checkinTime result) schedule (Some logMessage)))
    (fun error =>
       log (entry "error" nip ("Gagal check-in " +:+ display schedule +:+ ": " +:+ error));;
       mret (CheckinResponse false error None schedule None)).
End WithToString.

(** [app.post('/api/location')]: three assignments on the loaded
    configuration, which is then written; a property assigned [undefined]
    is not written. *)
Definition post_location (f : file obj) (body : obj) : file obj * response :=
  let config := loadConfig f in
  let config := with_prop "latitude" (body !! "latitude") config in
  let config := with_prop "longitude" (body !! "longitude") config in
  let config := with_prop "locationName" (body !! "name") config in
  (Stored config, Response true "Location saved").

(** [if (p !== undefined) config.key = p]. *)
Definition assign_defined (key : string) (p : option value) (config : obj) : obj :=
  match p with
  | Some v => <[key := v]> config
  | None => config
  end.

(** [app.post('/api/fonnte/save')]. *)
Definition post_fonnte_save (f : file obj) (body : obj) : file obj * response :=
  let config := loadConfig f in
  let config := assign_defined "fonnteAccountToken" (body !! "accountToken") config in
  let config := assign_defined "fonnteToken" (body !! "deviceToken") config in
  let config := assign_defined "fonnteDeviceNumber" (body !! "deviceNumber") config in
  let config := assign_defined "fonnteDeviceName" (body !! "deviceName") config in
  (Stored config, Response true "Fonnte config saved").

(** The log entries [app.get('/')] hands to the page:
    [loadLogs().slice(-20).reverse()]. *)
Definition dashboard_logs (f : file (list obj)) : list obj :=
  reverse (slice_last 20 (loadLogs f)).

End Server.

(** ** src/index.js: the scheduler process *)

Module Index.

(** [config], as read from the environment. *)
Record settings : Type := Settings {
  kodeKantor : string;
  status : string;
  shift : string;
  latitude : value;
  longitude : value;
  locationName : string;
  timezone : string;
  cronPagi : string;
  cronSiang : string;
  cronSore : string;
  fonnteToken : string;
  headless : bool;
  slowMo : Z;
  usersFile : string
}.

(** The values used when the environment sets nothing. *)
Definition defaults : settings :=
  Settings "004036057000000" "2" "1" (dec 537831 1000000) (dec 123058388 1000000)
           "KSOP Gorontalo" "Asia/Makassar"
           "0 7 * * 1-5" "5 12 * * 1-5" "0 17 * * 1-5" "" true 50 "./users.json".

(** An entry of [SCHEDULES], or the object made up for a name that is
    not in it, which has neither a cron expression nor a range. *)
Record schedule : Type := Schedule {
  name : string;
  cron : option string;
  status_wfh : string;
  schedule_shift : string;
  startMinute : option Z;
  endMinute : option Z
}.

Definition SCHEDULES (config : settings) : list schedule :=
  [ Schedule "Pagi" (Some (cronPagi config)) "2" "1" (Some 0) (Some 60);
    Schedule "Siang" (Some (cronSiang config)) "2" "1" (Some 0) (Some 55);
    Schedule "Sore" (Some (cronSore config)) "2" "1" (Some 0) (Some 60) ].

(** [n || d] on a number that may be missing. *)
Definition or_number (n : option Z) (d : Z) : Z :=
  match n with
  | Some z => if z =? 0 then d else z
  | None => d
  end.

(** [s || d] on strings. *)
Definition or_string (s d : string) : string :=
  if String.eqb s "" then d else s.

(** [getRandomDelayInRange(schedule)], for the value [r] that
    [Math.random()] returns. *)
Definition getRandomDelayInRange (s : schedule) (r : Q) : Q :=
  let minMs := inject_Z (or_number (startMinute s) 0 * 60 * 1000) in
  let maxMs := inject_Z (or_number (endMinute s) 30 * 60 * 1000) in
  (minMs + r * (maxMs - minMs))%Q.

Section WithToString.
Variable display : option value → string.
Variable w : world.
Variable config : settings.

(** [const results = []]. *)
Definition new_results : run unit :=
  modify (fun m =>
    Machine (draws m) (attempts m) (sends m) []
            (config_file m) (users_file m) (logs_file m)).

Definition write_users (users : list obj) : run unit :=
  modify (fun m =>
    Machine (draws m) (attempts m) (sends m) (results m)
            (config_file m) (Stored users) (logs_file m)).

(** One roster record per entry of the directory. *)
Definition user_of (p : obj) : obj :=
  with_prop "nip" (p !! "id")
    (with_prop "password" (p !! "id")
       (with_prop "name" (p !! "text")
          (<["phone" := VStr ""]> {["enabled" := VBool true]}))).

Definition getUsers : run (list obj) :=
  m ← get;
  match users_file m with
  | Stored users => mret users
  | Unreadable err => throw err
  | Absent =>
      logger Checkin.Info "Fetching users from API...";;
      emit (Directory (kodeKantor config));;
      match directory w with
      | inl error =>
          logger Checkin.Error ("Failed to fetch users: " +:+ error);;
          mret []
      | inr pegawai =>
          let users := user_of <$> pegawai in
          write_users users;;
          logger Checkin.Info ("Saved " +:+ pretty (length users) +:+ " users to "
                               +:+ usersFile config);;
          mret users
      end
  end.

Definition enabled_user (u : obj) : bool :=
  truthy_prop (u !! "enabled") && truthy_prop (u !! "nip")
  && truthy_prop (u !! "password").

Definition schedule_obj (s : schedule) : obj :=
  <["name" := VStr (name s)]> {["status_wfh" := VStr (status_wfh s)]}.

(** The body of the loop of [runCheckin] for the user at index [i] of
    [n]. *)
Definition checkinUser (s : schedule) (i n : nat) (user : obj) : run unit :=
  try_catch
    (r ← draw w;
     let preDelay := (r * 30000)%Q in
     when (negb (Qle_bool preDelay 1000))
       (logger Checkin.Info ("⏳ Waiting " +:+ pretty (round (preDelay / 1000))
                             +:+ "s before " +:+ display (user !! "name") +:+ "...");;
        sleep preDelay);;
     logger Checkin.Info ("🚀 [" +:+ pretty (i + 1)%nat +:+ "/" +:+ pretty n
                           +:+ "] Processing: " +:+ display (user !! "name"));;
     result ← performCheckin display w
       (Checkin.Config (user !! "nip") (user !! "password")
          (Some (VStr (or_string (status_wfh s) (status config))))
          (Some (VStr (or_string (schedule_shift s) (shift config))))
          (Some (latitude config)) (Some (longitude config))
          (headless config) (slowMo config));
     push (RunResult (user !! "nip") (user !! "name") (Checkin.success result)
             (Checkin.message result) (Checkin.checkinTime result));;
     (if Checkin.success result
      then logger Checkin.Info ("✅ " +:+ display (user !! "name") +:+ ": "
                                +:+ Checkin.message result)
      else logger Checkin.Error ("❌ " +:+ display (user !! "name") +:+ ": "
                                 +:+ Checkin.message result));;
     when (negb (String.eqb (fonnteToken config) "") && truthy_prop (user !! "phone"))
       (sendWhatsAppNotification display w
          (Checkin.Notification user (schedule_obj s) (Checkin.success result)
             (Checkin.message result) (Some (VStr (fonnteToken config)))
             (Some (VStr (locationName config)))));;
     when (i <? n - 1)%nat
       (r' ← draw w; sleep (3000 + r' * 5000)%Q))
    (fun error =>
       logger Checkin.Error ("❌ Error for " +:+ display (user !! "nip") +:+ ": "
                             +:+ error);;
       push (RunResult (user !! "nip") (user !! "name") false error None)).

Fixpoint checkinUsers (s : schedule) (i n : nat) (users : list obj) : run unit :=
  match users with
  | [] => mret tt
  | user :: rest => checkinUser s i n user;; checkinUsers s (S i) n rest
  end.

(** The first line a run logs. *)
Definition start_line (scheduleName : string) : event :=
  Logger Checkin.Info ("=== Starting " +:+ scheduleName +:+ " check-in at "
                       +:+ clock w +:+ " WITA ===").

(** The reason a run gives when it stops at the guard. *)
Definition skip_reason : string :=
  if Utils.isWeekend (today w) then "⏭️ Skipping: Weekend"
  else "⏭️ Skipping: Holiday".

(** [runCheckin(scheduleName)]; [None] is the [undefined] of the early
    returns. *)
Definition runCheckin (scheduleName : string) : run (option (list run_result)) :=
  emit (start_line scheduleName);;
  if Utils.isWeekend (today w) then
    logger Checkin.Info "⏭️ Skipping: Weekend";; mret None
  else if Utils.isHoliday (today w) then
    logger Checkin.Info "⏭️ Skipping: Holiday";; mret None
  else
    users ← getUsers;
    if (length users =? 0)%nat then
      logger Checkin.Error "❌ No users found";; mret None
    else
      let enabledUsers := List.filter enabled_user users in
      logger Checkin.Info ("👥 Processing " +:+ pretty (length enabledUsers)
                           +:+ " enabled users...");;
      new_results;;
      let s :=
        match List.find (fun s => String.eqb (name s) scheduleName) (SCHEDULES config) with
        | Some s => s
        | None => Schedule scheduleName None (status config) (shift config) None None
        end in
      checkinUsers s 0 (length enabledUsers) enabledUsers;;
      m ← get;
      let success := length (List.filter r_success (results m)) in
      let failed := length (List.filter (fun r => negb (r_success r)) (results m)) in
      logger Checkin.Info ("=== Check-in complete: " +:+ pretty success
                           +:+ " success, " +:+ pretty failed +:+ " failed ===");;
      mret (Some (results m)).

(** The first half of the callback registered with [cron.schedule]
    for [s]: the random delay is computed, announced and waited. *)
Definition waitRandomDelay (s : schedule) : run Z :=
  r ← draw w;
  let randomDelayMs := getRandomDelayInRange s r in
  let delayMinutes := round (randomDelayMs / 60000) in
  logger Checkin.Info ("⏰ Cron triggered: " +:+ name s);;
  logger Checkin.Info ("🎲 Random delay: " +:+ pretty delayMinutes +:+ " menit");;
  logger Checkin.Info ("📌 Scheduled check-in at: " +:+ clock_after w randomDelayMs
                       +:+ " WITA");;
  when (negb (Qle_bool randomDelayMs 0)) (sleep randomDelayMs);;
  mret delayMinutes.

(** The callback: after the delay the run is started; it is not
    awaited, so its outcome is dropped. *)
Definition cronCallback (s : schedule) : run unit :=
  delayMinutes ← waitRandomDelay s;
  logger Checkin.Info ("🚀 Starting " +:+ name s +:+ " check-in (after "
                       +:+ pretty delayMinutes +:+ "m delay)");;
  try_catch (runCheckin (name s);; mret tt) (fun _ => mret tt).

(** What the process does with its command line. *)
Inductive command : Type :=
| Sync
| RunNow (scheduleName : string)
| Serve.

Definition has (args : list string) (flag : string) : bool :=
  existsb (String.eqb flag) args.

Definition dispatch (args : list string) : command :=
  if has args "--sync" then Sync
  else if has args "--manual" || has args "--checkin" then RunNow "Manual"
  else if has args "--pagi" then RunNow "Pagi"
  else if has args "--siang" then RunNow "Siang"
  else if has args "--sore" then RunNow "Sore"
  else Serve.

(** What can set a run in motion in the scheduler process: the command
    line, or, once it serves, the timer of a schedule. *)
Inductive trigger : Type :=
| CommandLine (args : list string)
| Timer (s : schedule).

Definition fire (t : trigger) : run unit :=
  match t with
  | CommandLine args =>
      match dispatch args with
      | Sync =>
          logger Checkin.Info "📥 Syncing users from API...";;
          try_catch
            (users ← getUsers;
             logger Checkin.Info ("✅ Synced " +:+ pretty (length users) +:+ " users"))
            (fun err => logger Checkin.Error ("❌ Sync failed: " +:+ err))
      | RunNow scheduleName =>
          (if String.eqb scheduleName "Manual"
           then logger Checkin.Info "⚡ Manual check-in triggered"
           else mret tt);;
          try_catch (runCheckin scheduleName;; mret tt) (fun _ => mret tt)
      | Serve => mret tt      (* registers the callbacks and waits *)
      end
  | Timer s => cronCallback s
  end.
End WithToString.

End Index.

(** * Properties *)

(** ** Facts about the JavaScript notions *)

Section JsFacts.



Lemma slice_last_length {A} (n : nat) (l : list A) :
  length (slice_last n l) = Nat.min n (length l).
Proof. unfold slice_last. rewrite length_drop. lia. Qed.


(** Cutting the front to its last [n] before appending does not change
    the last [n] of the whole. *)
Lemma slice_last_app_slice {A} (n : nat) (l new : list A) :
  slice_last n (slice_last n l ++ new) = slice_last n (l ++ new).
Proof.
  unfold slice_last. rewrite !length_app, length_drop.
  destruct (decide (length l ≤ n)%nat) as [Hle|Hgt].
  - replace (length l - n)%nat with 0%nat by lia. simpl.
    by rewrite Nat.sub_0_r.
  - replace (length l - (length l - n) + length new - n)%nat
      with (length new) by lia.
    replace (length l + length new - n)%nat
      with ((length l - n) + length new)%nat by lia.
    rewrite <- drop_drop. f_equal.
    rewrite drop_app_le by lia. done.
Qed.

End JsFacts.

(** ** The rolling log *)

Section Logs.

Lemma addLog_contents (now : string) (log : obj) (f : file (list obj)) :
  Server.addLog now log f
  = Stored (slice_last 100 (contents f ++ [Server.stamp now log])).
Proof.
  unfold Server.addLog. f_equal.
  destruct f as [|err|logs]; simpl; try done.
  apply slice_last_app_slice.
Qed.


End Logs.


(** ** The configuration record *)

Section Config.

Lemma loadConfig_default (f : file obj) (k : string) :
  Server.loadConfig f !! k = None → Server.DEFAULT_CONFIG !! k = None.
Proof.
  destruct f as [|err|stored]; simpl; try done.
  unfold spread. rewrite lookup_union_None. tauto.
Qed.


End Config.



(** ** The roster *)

Section Roster.

Implicit Types (users : list obj) (u v body : obj).



Lemma findIndex_None {A} (p : A → bool) (l : list A) :
  findIndex p l = None ↔ ∀ x, x ∈ l → p x = false.
Proof.
  induction l as [|a l IH]; simpl.
  - split; [|done]. intros _ x Hx. by apply elem_of_nil in Hx.
  - destruct (p a) eqn:Hpa.
    + split; [done|]. intros H. specialize (H a (list_elem_of_here _ _)). congruence.
    + destruct (findIndex p l) as [k|]; simpl.
      * split; [done|]. intros H.
        assert (Some k = None) as Hk; [|done].
        apply IH. intros x Hx. apply H. by apply list_elem_of_further.
      * split; [|done]. intros _ x [->|Hx]%elem_of_cons; [done|].
        by apply IH.
Qed.








End Roster.

Section RosterRoutes.

Implicit Types (users : list obj) (u v body : obj).

Lemma alter_as_insert (g : obj → obj) (i : nat) users u :
  users !! i = Some u → alter g i users = <[i := g u]> users.
Proof.
  intros Hu. apply list_eq. intros j.
  destruct (decide (i = j)) as [->|Hne].
  - rewrite list_lookup_alter_eq, Hu, list_lookup_insert_eq; [done|].
    by eapply lookup_lt_Some.
  - by rewrite list_lookup_alter_ne, list_lookup_insert_ne.
Qed.




End RosterRoutes.



(** ** Working days *)

Section WorkingDays.



Lemma getDay_range (d : Utils.date) : 0 ≤ Utils.getDay d ≤ 6.
Proof.
  unfold Utils.getDay.
  pose proof (Z.mod_pos_bound (Utils.days_from_epoch d + 4) 7). lia.
Qed.

End WorkingDays.



(** ** The page classifier *)

Section Classifier.

Lemma first_match_page_groups (pageContent pageUrl : string) :
  Checkin.first_match Checkin.page_groups (pageContent, pageUrl)
  = if Checkin.success_markers pageContent pageUrl then Checkin.Succeeded
    else if Checkin.already_markers pageContent then Checkin.AlreadySubmitted
    else if Checkin.invalid_markers pageContent then Checkin.InvalidCredentials
    else if Checkin.early_markers pageContent then Checkin.TooEarly
    else if Checkin.location_markers pageContent then Checkin.LocationProblem
    else Checkin.Unrecognized.
Proof. reflexivity. Qed.

Lemma success_markers_keywords (pageContent pageUrl : string) :
  Checkin.success_markers pageContent pageUrl
  = Checkin.success_keywords pageContent
    || includes pageUrl "/home" || includes pageUrl "/dashboard".
Proof. reflexivity. Qed.

End Classifier.

(** C1 (as amended).  The classifier is a function of the content, the
    title and the address of the page (and of the extracted time, which
    only enters the message): its result is the outcome of the first group
    that matches, in the order success, already submitted, invalid
    credentials, too early, location problem, where the success group
    matches on its keywords or on an address containing [/home] or
    [/dashboard]; a page that matches no group gives the unrecognised
    outcome with the page title, after a screenshot.  When the address has
    neither marker the groups are those of the page text alone. *)
Theorem C1_classifier_first_match
    (pageContent pageTitle pageUrl : string) (time : option string)
    (h : Checkin.handles) :
  let c := Checkin.first_match Checkin.page_groups (pageContent, pageUrl) in
  Checkin.classify pageContent pageTitle pageUrl time h
  = (Returned (Checkin.outcome_of c pageTitle time), h,
     match c with
     | Checkin.Unrecognized => [Checkin.Screenshot "unknown_result"]
     | _ => []
     end)
  ∧ (c = Checkin.Unrecognized →
     Checkin.outcome_of c pageTitle time
     = Checkin.Result false ("Response tidak dikenali: " +:+ pageTitle) None)
  ∧ (includes pageUrl "/home" = false → includes pageUrl "/dashboard" = false →
     c = Checkin.first_match Checkin.keyword_groups pageContent).
Proof.
  intros c. unfold c. rewrite first_match_page_groups.
  unfold Checkin.classify. split; [|split].
  - destruct (Checkin.success_markers _ _); [done|].
    destruct (Checkin.already_markers _); [done|].
    destruct (Checkin.invalid_markers _); [done|].
    destruct (Checkin.early_markers _); [done|].
    destruct (Checkin.location_markers _); done.
  - by intros ->.
  - intros Hhome Hdash. rewrite success_markers_keywords, Hhome, Hdash.
    rewrite !orb_false_r. reflexivity.
Qed.

(** A page that says the password is wrong and also that the location is
    not valid is an invalid-credentials page: the earlier group wins. *)
Lemma C1_classifier_first_match_witness :
  Checkin.first_match Checkin.page_groups
    ("<p>Password salah, lokasi tidak valid</p>", "https://skemaraja.kemenhub.go.id/")
  = Checkin.first_match Checkin.keyword_groups "<p>Password salah, lokasi tidak valid</p>"
  ∧ Checkin.first_match Checkin.keyword_groups "<p>Password salah, lokasi tidak valid</p>"
    = Checkin.InvalidCredentials.
Proof.
  split; [|reflexivity].
  apply (C1_classifier_first_match "<p>Password salah, lokasi tidak valid</p>" ""
           "https://skemaraja.kemenhub.go.id/" None Checkin.start); reflexivity.
Defined.

(** C1 as stated fails: a page whose text has none of the keywords, at an
    address containing [/home], is classified as a success, not as
    unrecognised; the outcome is not a function of the page text. *)
Lemma C1_classifier_counterexample :
  ¬ (∀ pageContent pageTitle pageUrl time h,
       result_of (Checkin.classify pageContent pageTitle pageUrl time h)
       = Returned (Checkin.outcome_of
                     (Checkin.first_match Checkin.keyword_groups pageContent)
                     pageTitle time)).
Proof.
  intros H.
  specialize (H "<h1>Halo</h1>" "Beranda" "https://skemaraja.kemenhub.go.id/home"
                None Checkin.start).
  vm_compute in H. discriminate.
Qed.

(** ** The check-in time *)

Section CheckinTime.

Lemma substring_0_0 (s : string) : String.substring 0 0 s = "".
Proof. by destruct s. Qed.

Lemma time_at_sound (s t : string) :
  Checkin.time_at s = Some t →
  Checkin.clock_shaped t = true ∧ String.prefix t s = true.
Proof.
  destruct s as [|h1 [|h2 [|c1 [|m1 [|m2 [|c2 [|s1 [|s2 rest]]]]]]]];
    try discriminate.
  - (* exactly seven characters *)
    unfold Checkin.time_at.
    destruct (_ && _) eqn:Hshape; [|discriminate].
    intros [= <-]. split; [exact Hshape|].
    apply String.prefix_correct. reflexivity.
  - unfold Checkin.time_at.
    destruct (Checkin.is_digit h1 && Checkin.is_digit h2 && _ && _ && _ && _ && _ && _)
      eqn:Hlong.
    + intros [= <-]. simpl String.substring. rewrite substring_0_0.
      split; [exact Hlong|].
      apply String.prefix_correct. simpl. by rewrite substring_0_0.
    + destruct (Checkin.is_digit h1 && (h2 =? ":")%char && _ && _ && _ && _ && _)
        eqn:Hshort; [|discriminate].
      intros [= <-]. simpl String.substring.
      split; [exact Hshort|].
      apply String.prefix_correct. reflexivity.
Qed.

Lemma timeMatch_cons (c : ascii) (rest : string) :
  Checkin.timeMatch (String c rest)
  = match Checkin.time_at (String c rest) with
    | Some found => Some found
    | None => Checkin.timeMatch rest
    end.
Proof. reflexivity. Qed.

Lemma includes_cons (c : ascii) (rest needle : string) :
  includes (String c rest) needle
  = if String.prefix needle (String c rest) then true else includes rest needle.
Proof. reflexivity. Qed.

(** What the pattern extracts has the shape of a clock time and occurs
    in the text. *)
Lemma timeMatch_sound (s t : string) :
  Checkin.timeMatch s = Some t →
  Checkin.clock_shaped t = true ∧ includes s t = true.
Proof.
  induction s as [|c rest IH].
  - discriminate.
  - rewrite timeMatch_cons, includes_cons.
    destruct (Checkin.time_at (String c rest)) as [found|] eqn:Hat.
    + intros [= <-]. apply time_at_sound in Hat as [Hshape Hpre].
      split; [done|]. by rewrite Hpre.
    + intros [Hshape Hinc]%IH. split; [done|].
      destruct (String.prefix t (String c rest)); done.
Qed.

Lemma readTable_sound (v : Checkin.page_view) (col : nat) (t : string) :
  Checkin.readTable v col = Some t → Checkin.clock_shaped t = true.
Proof.
  unfold Checkin.readTable.
  destruct (match Checkin.absensi_table v with
            | Some t0 => Some t0
            | None => Checkin.bordered_table v
            end) as [[|firstRow rows]|]; try done.
  destruct (firstRow !! col) as [cell|]; [|done].
  intros H. by apply timeMatch_sound in H as [? _].
Qed.

End CheckinTime.

(** C5 (as amended).  The column read is 1 (Pagi) before hour 12, 2
    (Siang) for hours 12 to 15 and 3 (Sore) from hour 16 on.  When the
    evaluation in the page goes through, the reported time is what the
    pattern finds in that cell of the first row of the table, a text shaped
    like a clock time, and it is [null] when there is no table, no row, no
    such cell or no match; only when the evaluation throws is the current
    time in Asia/Makassar reported instead.  The extraction itself never
    throws. *)
Theorem C5_checkin_time (w : Checkin.world) (h : Checkin.handles) :
  let column := Checkin.sessionColumn (Checkin.witaHour w) in
  let read := Checkin.readTable (Checkin.view w) column in
  Checkin.extractCheckinTime w h
  = (Returned (match Checkin.rejects w Checkin.EvaluateTable with
               | Some _ => Some (Checkin.dots_to_colons (Checkin.witaClock w))
               | None => read
               end),
     h, [Checkin.Did Checkin.EvaluateTable])
  ∧ ((Checkin.witaHour w < 12 → column = 1%nat)
     ∧ (12 ≤ Checkin.witaHour w ≤ 15 → column = 2%nat)
     ∧ (16 ≤ Checkin.witaHour w → column = 3%nat))
  ∧ read
    = match (match Checkin.absensi_table (Checkin.view w) with
             | Some t => Some t
             | None => Checkin.bordered_table (Checkin.view w)
             end) with
      | Some (firstRow :: _) =>
          match firstRow !! column with
          | Some cell => Checkin.timeMatch (Checkin.trim cell)
          | None => None
          end
      | _ => None
      end
  ∧ (∀ t, read = Some t → Checkin.clock_shaped t = true).
Proof.
  intros column read. split; [|split; [|split]].
  - unfold Checkin.extractCheckinTime, try_catch, mbind, prog_bind, bind, Checkin.act.
    destruct (Checkin.rejects w Checkin.EvaluateTable); reflexivity.
  - unfold column, Checkin.sessionColumn. repeat split; intros Hh.
    + replace (12 <=? Checkin.witaHour w) with false by lia.
      replace (16 <=? Checkin.witaHour w) with false by lia. done.
    + replace (12 <=? Checkin.witaHour w) with true by lia.
      replace (Checkin.witaHour w <? 16) with true by lia. done.
    + replace (Checkin.witaHour w <? 16) with false by lia.
      replace (16 <=? Checkin.witaHour w) with true by lia.
      by rewrite andb_false_r.
  - unfold read, Checkin.readTable.
    destruct (match Checkin.absensi_table (Checkin.view w) with
              | Some t => Some t
              | None => Checkin.bordered_table (Checkin.view w)
              end) as [[|firstRow rows]|]; reflexivity.
  - intros t. apply readTable_sound.
Qed.

(** At 11 o'clock, with a table whose first row reads
    [07-Jan-2026 | 07-Jan-2026 07:12:45 | - | -], the reported time is
    [07:12:45]. *)
Lemma C5_checkin_time_witness :
  let v := Checkin.PageView "" "" ""
             (Some [["07-Jan-2026"; "07-Jan-2026 07:12:45"; "-"; "-"]]) None in
  let w := Checkin.World (fun _ => None) "" "" v 11 "11.29.24" in
  Checkin.sessionColumn (Checkin.witaHour w) = 1%nat
  ∧ Checkin.readTable v 1 = Some "07:12:45"
  ∧ Checkin.clock_shaped "07:12:45" = true.
Proof.
  intros v w.
  destruct (C5_checkin_time w Checkin.start) as (_ & (Hpagi & _ & _) & _ & Hshape).
  split; [|split].
  - apply Hpagi. simpl. lia.
  - reflexivity.
  - apply Hshape. reflexivity.
Defined.

(** C5 as stated fails: with no results table on the page the evaluation
    goes through and returns [null]; the reported time is then [null], not
    the current time. *)
Lemma C5_checkin_time_counterexample :
  ¬ (∀ w h, result_of (Checkin.extractCheckinTime w h)
            = Returned (Checkin.time_or_now w)).
Proof.
  intros H.
  specialize (H (Checkin.World (fun _ => None) "" ""
                   (Checkin.PageView "<p>Berhasil</p>" "SKEMA RAJA"
                      "https://skemaraja.kemenhub.go.id/" None None)
                   7 "07.00.05")
                Checkin.start).
  vm_compute in H. discriminate.
Qed.

(** ** Navigation *)

Section Navigation.

Variable w : Checkin.world.

Let warn (n : string) : Checkin.event :=
  Checkin.Log Checkin.Warn ("⚠️ Navigation failed, retrying (" +:+ n +:+ " left)...").

(** The loop, spelled out on the answers to the three possible calls. *)
Lemma navigate_unfold (h : Checkin.handles) :
  Checkin.navigate w 3 0 h
  = match Checkin.rejects w (Checkin.Goto 0) with
    | None => (Returned tt, h, [Checkin.Did (Checkin.Goto 0)])
    | Some _ =>
        match Checkin.rejects w (Checkin.Goto 1) with
        | None =>
            (Returned tt, h,
             [Checkin.Did (Checkin.Goto 0); warn "2"; Checkin.Timeout 5000;
              Checkin.Did (Checkin.Goto 1)])
        | Some _ =>
            match Checkin.rejects w (Checkin.Goto 2) with
            | None =>
                (Returned tt, h,
                 [Checkin.Did (Checkin.Goto 0); warn "2"; Checkin.Timeout 5000;
                  Checkin.Did (Checkin.Goto 1); warn "1"; Checkin.Timeout 5000;
                  Checkin.Did (Checkin.Goto 2)])
            | Some navError =>
                (Thrown navError, h,
                 [Checkin.Did (Checkin.Goto 0); warn "2"; Checkin.Timeout 5000;
                  Checkin.Did (Checkin.Goto 1); warn "1"; Checkin.Timeout 5000;
                  Checkin.Did (Checkin.Goto 2)])
            end
        end
    end.
Proof.
  unfold Checkin.navigate, try_catch, mbind, prog_bind, bind, Checkin.act,
    Checkin.log, emit, throw.
  destruct (Checkin.rejects w (Checkin.Goto 0)); [|reflexivity].
  destruct (Checkin.rejects w (Checkin.Goto 1)); [|reflexivity].
  destruct (Checkin.rejects w (Checkin.Goto 2)); reflexivity.
Qed.

End Navigation.

Section NavigationSurfaces.

Variable display : option value → string.
Variable w : Checkin.world.
Variable c : Checkin.config.


End NavigationSurfaces.




(** ** Notifications *)

Section Notification.

Variable display : option value → string.

Lemma notification_skipped (n : Checkin.notification) (timeStr : string)
    (answer : Checkin.gateway_answer) :
  truthy_prop (Checkin.user n !! "phone") = false
  ∨ truthy_prop (Checkin.fonnteToken n) = false →
  Checkin.sendWhatsAppNotification display n timeStr answer tt = (Returned tt, tt, []).
Proof.
  unfold Checkin.sendWhatsAppNotification. intros [-> | ->]; [done|].
  by rewrite orb_true_r.
Qed.

Lemma notification_sent (n : Checkin.notification) (timeStr : string)
    (answer : Checkin.gateway_answer) (s : string) :
  Checkin.user n !! "phone" = Some (VStr s) →
  s ≠ "" →
  truthy_prop (Checkin.fonnteToken n) = true →
  ∃ msg,
    Checkin.sendWhatsAppNotification display n timeStr answer tt
    = (Returned tt, tt,
       [Checkin.Post Checkin.FONNTE_API (Checkin.fonnteToken n)
          (Checkin.digits_only s) (Checkin.waMessage display n timeStr);
        Checkin.WaLog (Checkin.logged_level answer) msg]).
Proof.
  intros Hphone Hs Htoken.
  assert (Htruthy : truthy_prop (Some (VStr s)) = true).
  { simpl. apply negb_true_iff. by apply String.eqb_neq. }
  unfold Checkin.sendWhatsAppNotification. rewrite Hphone, Htoken, Htruthy.
  cbn [negb orb].
  unfold try_catch, mbind, prog_bind, bind, emit, throw, mret, prog_ret, ret,
    Checkin.property.
  destruct answer as [err|err|[| | | | |fields]]; try (eexists; reflexivity).
  simpl. destruct (truthy_prop (fields !! "status")); eexists; reflexivity.
Qed.

End Notification.




(** A phone number stored as a JSON number has no [replace]: the call
    throws before the [try], and the error reaches the caller. *)
Remark notification_phone_not_a_string :
  result_of (Checkin.sendWhatsAppNotification (fun _ => "")
               (Checkin.Notification {["phone" := num 6281234567890]} ∅
                  true "" (Some (VStr "device-token")) None)
               "" (Checkin.Parsed (VObj {["status" := VBool true]})) tt)
  = Thrown "user.phone.replace is not a function".
Proof. reflexivity. Qed.

(** ** Runs *)

Section DashboardRun.

Variable display : option value → string.
Variable w : world.

(** Every turn of the dashboard loop makes exactly one attempt, whatever
    its outcome, and returns. *)
Lemma server_checkinUser_attempts (config : obj) (schedule : string) (i n : nat)
    (user : obj) (m : machine) :
  let r := Server.checkinUser display w config schedule i n user m in
  result_of r = Returned tt ∧ attempts (state_of r) = S (attempts m).
Proof.
  unfold Server.checkinUser, try_catch, mbind, prog_bind, bind, when,
    Runtime.performCheckin, Runtime.sendWhatsAppNotification, Server.log,
    draw, sleep, emit, modify, mret, prog_ret, ret.
  cbn. destruct (Qle_bool _ _); cbn;
  destruct (Checkin.performCheckin _ _ _ _) as [[[result|err] ?] ?]; cbn; try done.
  all: destruct (_ && _); cbn;
    try (destruct (Checkin.sendWhatsAppNotification _ _ _ _ _) as [[[[]|err] ?] ?]; cbn);
    try done.
  all: try destruct (match (n - 1)%nat with 0%nat => _ | S _ => _ end); cbn; done.
Qed.

Lemma server_checkinUsers_attempts (config : obj) (schedule : string) (n : nat)
    (users : list obj) (i : nat) (m : machine) :
  let r := Server.checkinUsers display w config schedule i n users m in
  result_of r = Returned tt
  ∧ attempts (state_of r) = (attempts m + length users)%nat.
Proof.
  revert i m. induction users as [|user rest IH]; intros i m.
  - unfold state_of. simpl. split; [done|lia].
  - cbn [Server.checkinUsers length]. unfold mbind, prog_bind, bind.
    destruct (server_checkinUser_attempts config schedule i n user m) as [Hres Hatt].
    destruct (Server.checkinUser display w config schedule i n user m)
      as [[o m1] t1].
    unfold result_of, state_of in Hres, Hatt. simpl in Hres, Hatt. subst o.
    destruct (IH (S i) m1) as [Hres' Hatt'].
    destruct (Server.checkinUsers display w config schedule (S i) n rest m1)
      as [[o2 m2] t2].
    unfold result_of, state_of in *. simpl in *. split; [done|lia].
Qed.

(** The dashboard trigger attempts every enabled user of the roster, on
    any day. *)
Lemma post_trigger_attempts (m : machine) :
  let users := List.filter Server.enabled_user (Server.loadUsers (users_file m)) in
  let r := Server.post_trigger display w m in
  users ≠ [] →
  result_of r
  = Returned (Server.Response true
                ("Check-in started for " +:+ pretty (length users) +:+ " users"))
  ∧ attempts (state_of r) = (attempts m + length users)%nat.
Proof.
  intros users r Hne. unfold r, Server.post_trigger.
  unfold mbind, prog_bind, bind, get. cbn [fst snd]. fold users.
  destruct users as [|u rest] eqn:Husers; [done|]. rewrite <- Husers.
  replace (length users =? 0)%nat with false
    by (rewrite Husers; reflexivity).
  unfold Server.runCheckin, try_catch, mbind, prog_bind, bind, Server.log, modify.
  cbn [fst snd].
  match goal with
  | |- context [Server.checkinUsers display w ?c ?s 0 ?n users ?m0] =>
      destruct (server_checkinUsers_attempts c s n users 0 m0) as [Hres Hatt];
      destruct (Server.checkinUsers display w c s 0 n users m0) as [[o m1] t1]
  end.
  unfold result_of, state_of in *. simpl in Hres, Hatt. subst o.
  simpl. split; [done|]. exact Hatt.
Qed.

End DashboardRun.

Section SchedulerRun.

Variable display : option value → string.
Variable w : world.
Variable config : Index.settings.

(** On a day that is not a working day a run logs that it starts and why
    it stops, and does nothing else. *)
Lemma runCheckin_skips (scheduleName : string) (m : machine) :
  Utils.isWorkingDay (today w) = false →
  Index.runCheckin display w config scheduleName m
  = (Returned None, m,
     [Index.start_line w scheduleName; Logger Checkin.Info (Index.skip_reason w)]).
Proof.
  unfold Utils.isWorkingDay, Index.runCheckin, Index.skip_reason, Index.start_line.
  unfold mbind, prog_bind, bind, logger, emit.
  destruct (Utils.isWeekend (today w)); [done|].
  destruct (Utils.isHoliday (today w)); done.
Qed.

(** The first half of the timer callback, spelled out. *)
Lemma waitRandomDelay_unfold (s : Index.schedule) (m : machine) :
  let d := Index.getRandomDelayInRange s (random w (draws m)) in
  Index.waitRandomDelay w s m
  = (Returned (round (d / 60000)), drawn m,
     [Logger Checkin.Info ("⏰ Cron triggered: " +:+ Index.name s);
      Logger Checkin.Info ("🎲 Random delay: " +:+ pretty (round (d / 60000)) +:+ " menit");
      Logger Checkin.Info ("📌 Scheduled check-in at: " +:+ clock_after w d +:+ " WITA")]
     ++ (if Qle_bool d 0 then [] else [Sleep d])).
Proof.
  intros d. unfold Index.waitRandomDelay.
  unfold mbind, prog_bind, bind, draw, logger, sleep, emit, when, mret, prog_ret, ret.
  cbn [fst snd]. fold d.
  destruct (Qle_bool d 0); reflexivity.
Qed.

(** The timer callback is its first half, one line, and a run. *)
Lemma cronCallback_unfold (s : Index.schedule) (m : machine) :
  let waited := Index.waitRandomDelay w s m in
  let d := Index.getRandomDelayInRange s (random w (draws m)) in
  let ran := Index.runCheckin display w config (Index.name s) (drawn m) in
  result_of (Index.cronCallback display w config s m) = Returned tt
  ∧ state_of (Index.cronCallback display w config s m) = state_of ran
  ∧ trace_of (Index.cronCallback display w config s m)
    = trace_of waited
      ++ [Logger Checkin.Info ("🚀 Starting " +:+ Index.name s +:+ " check-in (after "
                               +:+ pretty (round (d / 60000)) +:+ "m delay)")]
      ++ trace_of ran.
Proof.
  intros waited d ran. unfold waited, ran, d. clear waited ran d.
  unfold Index.cronCallback, try_catch, mbind, prog_bind, bind.
  rewrite waitRandomDelay_unfold. cbv zeta.
  unfold logger, emit, mret, prog_ret, ret.
  destruct (Index.runCheckin display w config (Index.name s) (drawn m))
    as [[[res|err] m2] t2];
    unfold result_of, state_of, trace_of; cbn [fst snd];
    rewrite ?app_nil_r; repeat split.
Qed.

End SchedulerRun.

(** C6 (as amended).  On a day that is a weekend or a listed holiday,
    every run of the scheduler process stops at the guard: the run started
    by a timer callback, after its delay, and equally the run started from
    the command line ([--manual], [--checkin], [--pagi], [--siang],
    [--sore]) log the start line and the reason and end there, with no
    roster lookup and no attempt.  The trigger route of the dashboard has
    no such guard: on the same day it attempts every enabled user of its
    roster. *)
Theorem C6_working_day_guard
    (display : option value → string) (w : world) (config : Index.settings)
    (m : machine) :
  Utils.isWorkingDay (today w) = false →
  let stopped := fun scheduleName =>
    [Index.start_line w scheduleName; Logger Checkin.Info (Index.skip_reason w)] in
  (∀ s,
     let r := Index.cronCallback display w config s m in
     let d := Index.getRandomDelayInRange s (random w (draws m)) in
     result_of r = Returned tt
     ∧ state_of r = drawn m
     ∧ trace_of r
       = trace_of (Index.waitRandomDelay w s m)
         ++ [Logger Checkin.Info ("🚀 Starting " +:+ Index.name s +:+ " check-in (after "
                                  +:+ pretty (round (d / 60000)) +:+ "m delay)")]
         ++ stopped (Index.name s))
  ∧ (∀ args scheduleName,
       Index.dispatch args = Index.RunNow scheduleName →
       let r := Index.fire display w config (Index.CommandLine args) m in
       result_of r = Returned tt
       ∧ state_of r = m
       ∧ trace_of r
         = (if String.eqb scheduleName "Manual"
            then [Logger Checkin.Info "⚡ Manual check-in triggered"] else [])
           ++ stopped scheduleName)
  ∧ (let users := List.filter Server.enabled_user (Server.loadUsers (users_file m)) in
     let r := Server.post_trigger display w m in
     users ≠ [] →
     result_of r
     = Returned (Server.Response true
                   ("Check-in started for " +:+ pretty (length users) +:+ " users"))
     ∧ attempts (state_of r) = (attempts m + length users)%nat).
Proof.
  intros Hday stopped. split; [|split].
  - intros s r d.
    destruct (cronCallback_unfold display w config s m) as (Hres & Hst & Htr).
    unfold r. rewrite Hres, Hst, Htr.
    rewrite runCheckin_skips by done. done.
  - intros args scheduleName Hargs r. unfold r, Index.fire. rewrite Hargs.
    unfold try_catch, mbind, prog_bind, bind.
    destruct (String.eqb scheduleName "Manual");
      unfold logger, emit, mret, prog_ret, ret; cbn [fst snd];
      rewrite runCheckin_skips by done; done.
  - apply post_trigger_attempts.
Qed.

(** Saturday 10 January 2026: [node src/index.js --manual] stops at the
    guard. *)
Lemma C6_working_day_guard_witness :
  let w := World (Utils.Date 2026 1 10) 7 0 "10/1/2026, 07.00.00" (fun _ => "07.30.00")
             "2026-01-09T23:00:00.000Z" (fun _ => 1 # 2)
             (fun _ => Checkin.World (fun _ => None) "" ""
                         (Checkin.PageView "" "" "" None None) 7 "07.00.00")
             (fun _ => Checkin.FetchRejects "") (inl "offline") in
  let m := boot Absent (Stored [ {["nip" := VStr "1001"]} ]) Absent in
  trace_of (Index.fire (fun _ => "") w Index.defaults (Index.CommandLine ["--manual"]) m)
  = [Logger Checkin.Info "⚡ Manual check-in triggered";
     Logger Checkin.Info "=== Starting Manual check-in at 10/1/2026, 07.00.00 WITA ===";
     Logger Checkin.Info "⏭️ Skipping: Weekend"].
Proof.
  intros w m.
  assert (Hday : Utils.isWorkingDay (today w) = false) by reflexivity.
  destruct (C6_working_day_guard (fun _ => "") w Index.defaults m Hday)
    as (_ & Hcli & _).
  destruct (Hcli ["--manual"] "Manual" eq_refl) as (_ & _ & Htrace).
  rewrite Htrace. reflexivity.
Defined.

(** C6 as stated fails: the guard is not confined to the runs a timer
    starts; a run started from the command line on a Saturday is stopped
    by it too. *)
Lemma C6_working_day_guard_counterexample :
  ¬ (∀ display w config m t,
       existsb is_skip (trace_of (Index.fire display w config t m)) = true →
       ∃ s, t = Index.Timer s).
Proof.
  intros H.
  destruct (H (fun _ => "")
              (World (Utils.Date 2026 1 10) 7 0 "10/1/2026, 07.00.00" (fun _ => "07.30.00")
                 "2026-01-09T23:00:00.000Z" (fun _ => 1 # 2)
                 (fun _ => Checkin.World (fun _ => None) "" ""
                             (Checkin.PageView "" "" "" None None) 7 "07.00.00")
                 (fun _ => Checkin.FetchRejects "") (inl "offline"))
              Index.defaults
              (boot Absent (Stored [ {["nip" := VStr "1001"]} ]) Absent)
              (Index.CommandLine ["--manual"])
              eq_refl) as [s Hs].
  discriminate.
Qed.

(** ** The delay of the timer callback *)

Section CronDelay.


End CronDelay.




(** ** A worked run

    Wednesday 7 January 2026, one enabled user without a phone number, a
    portal that answers with the attendance table: the run of the Pagi
    window returns one successful result carrying the time read from the
    table, and its last line reports one success and no failure. *)
Example scheduled_run_of_one_user :
  let page := Checkin.PageView "<h3>Data Absensi</h3>" "SKEMA RAJA"
                "https://skemaraja.kemenhub.go.id/home"
                (Some [["07-Jan-2026"; "07-Jan-2026 07:12:45"; "-"; "-"]]) None in
  let w := World (Utils.Date 2026 1 7) 7 0 "7/1/2026, 07.00.00" (fun _ => "07.30.00")
             "2026-01-06T23:00:00.000Z" (fun _ => 1 # 100)
             (fun _ => Checkin.World (fun _ => None) "" "" page 7 "07.12.50")
             (fun _ => Checkin.FetchRejects "offline") (inl "offline") in
  let user := list_to_map [("nip", VStr "1001"); ("password", VStr "1001");
                           ("name", VStr "Budi"); ("enabled", VBool true)] in
  let r := Index.runCheckin (fun _ => "Budi") w Index.defaults "Pagi"
             (boot Absent (Stored [user]) Absent) in
  result_of r
  = Returned (Some [RunResult (Some (VStr "1001")) (Some (VStr "Budi")) true
                      "Check-in berhasil! (07:12:45)" (Some "07:12:45")])
  ∧ last (trace_of r)
    = Some (Logger Checkin.Info "=== Check-in complete: 1 success, 0 failed ===").
Proof. vm_compute. split; reflexivity. Qed.

(** The dates of the holiday list, read as dates: formatted in the en-CA
    locale they are the entries of the list, and none is a working day. *)
Example holidays_are_not_working_days :
  let dates :=
    (fun '(y, m, d) => Utils.Date y m d) <$>
      [ (2025, 1, 1); (2025, 1, 29); (2025, 1, 30); (2025, 3, 29); (2025, 3, 30);
        (2025, 3, 31); (2025, 4, 1); (2025, 4, 18); (2025, 5, 1); (2025, 5, 12);
        (2025, 5, 29); (2025, 6, 1); (2025, 6, 6); (2025, 6, 27); (2025, 8, 17);
        (2025, 9, 5); (2025, 12, 25);
        (2026, 1, 1); (2026, 1, 18); (2026, 2, 17); (2026, 3, 20); (2026, 3, 21);
        (2026, 4, 3); (2026, 5, 1); (2026, 5, 14); (2026, 5, 27); (2026, 6, 1);
        (2026, 6, 17); (2026, 8, 17); (2026, 8, 26); (2026, 12, 25) ] in
  Utils.toLocaleDateString_enCA <$> dates = Utils.HOLIDAYS
  ∧ forallb (fun d => negb (Utils.isWorkingDay d)) dates = true.
Proof. vm_compute. split; reflexivity. Qed.

(** One hundred and one appends to a log that was just cleared: the file
    holds one hundred entries, and the oldest one is gone. *)
Example one_append_too_many :
  let entries :=
    (fun n : nat => (pretty n, {["message" := VStr (pretty n)]} : obj)) <$> seq 0 101 in
  let f := Server.addLogs entries (Server.delete_logs Absent).1 in
  length (contents f) = 100%nat
  ∧ (head (contents f) ≫= fun e => e !! "timestamp") = Some (VStr "1").
Proof. vm_compute. split; reflexivity. Qed.

(** * Further properties of the code *)

(** ** Random delays *)

Section Delays.

(** The floor of a fraction of [n] is one of [0 .. n - 1]. *)
Lemma floor_of_fraction (r : Q) (n : Z) :
  0 < n → (0 <= r)%Q → (r < 1)%Q → 0 <= Qfloor (r * inject_Z n) < n.
Proof.
  intros Hn Hr0 Hr1.
  assert (Hpos : (0 < inject_Z n)%Q) by (rewrite (Zlt_Qlt 0 n) in Hn; exact Hn).
  split.
  - change 0 with (Qfloor 0). apply Qfloor_resp_le.
    apply Qmult_le_0_compat; [done|]. by apply Qlt_le_weak.
  - rewrite Zlt_Qlt.
    eapply Qle_lt_trans; [apply Qfloor_le|].
    assert (Hlt : (r * inject_Z n < 1 * inject_Z n)%Q) by (by apply Qmult_lt_r).
    lra.
Qed.

End Delays.

(** X1.  [randomDelay(min, max)] waits a whole number of milliseconds
    between [min] and [max], both included, whenever [min <= max]. *)
Theorem X1_randomDelay_bounds (min max : Z) (r : Q) :
  min <= max → (0 <= r)%Q → (r < 1)%Q →
  min <= Utils.randomDelay_ms min max r <= max.
Proof.
  intros Hle Hr0 Hr1. unfold Utils.randomDelay_ms.
  pose proof (floor_of_fraction r (max - min + 1) ltac:(lia) Hr0 Hr1). lia.
Qed.

(** The pause after the page was loaded, [randomDelay(1000, 2000)], with
    [Math.random()] just below one: 2000 ms, the upper end. *)
Lemma X1_randomDelay_bounds_witness :
  1000 <= Utils.randomDelay_ms 1000 2000 (999 # 1000) <= 2000
  ∧ Utils.randomDelay_ms 1000 2000 (9999 # 10000) = 2000.
Proof.
  split; [|reflexivity].
  apply (X1_randomDelay_bounds 1000 2000 (999 # 1000)); [lia | discriminate | reflexivity].
Defined.

(** X2.  The typing delay per character is a whole number of milliseconds
    from 50 to 149: 150 is never reached. *)
Theorem X2_typing_delay_bounds (r : Q) :
  (0 <= r)%Q → (r < 1)%Q →
  50 <= Checkin.getRandomTypingDelay r <= 149.
Proof.
  intros Hr0 Hr1. unfold Checkin.getRandomTypingDelay.
  pose proof (floor_of_fraction r 100 ltac:(lia) Hr0 Hr1) as H.
  change (inject_Z 100) with 100%Q in H. lia.
Qed.

Lemma X2_typing_delay_bounds_witness :
  50 <= Checkin.getRandomTypingDelay (999999 # 1000000) <= 149
  ∧ Checkin.getRandomTypingDelay (999999 # 1000000) = 149.
Proof.
  split; [|reflexivity].
  apply (X2_typing_delay_bounds (999999 # 1000000)); [discriminate | reflexivity].
Defined.

(** ** The schedule name of the dashboard *)

(** X3.  With a minute between 0 and 59 the three windows tested first
    change nothing: the name only depends on the hour, Pagi before 12,
    Siang from 12 to 15 and Sore from 16 on, and it names the column of the
    results table that [performCheckin] reads at that hour. *)
Theorem X3_schedule_name_by_hour (w : world) :
  0 <= minute w < 60 →
  Server.getScheduleName w
  = (if hour w <? 12 then "Pagi" else if hour w <? 16 then "Siang" else "Sore")
  ∧ Server.getScheduleName w
    = match Checkin.sessionColumn (hour w) with
      | 1%nat => "Pagi"
      | 2%nat => "Siang"
      | _ => "Sore"
      end.
Proof.
  intros Hm. unfold Server.getScheduleName, Checkin.sessionColumn. cbv zeta.
  repeat match goal with
         | |- context [?a <=? ?b] => destruct (Z.leb_spec a b)
         | |- context [?a <? ?b] => destruct (Z.ltb_spec a b)
         end; simpl; split; try reflexivity; lia.
Qed.

(** 13:30 lies in none of the three windows tested first; the name is
    Siang by the hour. *)
Lemma X3_schedule_name_by_hour_witness :
  let w := World (Utils.Date 2026 1 7) 13 30 "" (fun _ => "") "" (fun _ => 0%Q)
             (fun _ => Checkin.World (fun _ => None) "" ""
                         (Checkin.PageView "" "" "" None None) 13 "")
             (fun _ => Checkin.FetchRejects "") (inl "") in
  Server.getScheduleName w = "Siang".
Proof.
  intros w.
  destruct (X3_schedule_name_by_hour w ltac:(simpl; lia)) as [Hname _].
  rewrite Hname. reflexivity.
Defined.

(** ** The configuration file, continued *)

Section ConfigRoutes.

Lemma with_prop_lookup (key : string) (p : option value) (o : obj) (k : string) :
  with_prop key p o !! k = if decide (key = k) then p else o !! k.
Proof.
  unfold with_prop. destruct p as [v|]; case_decide as Hk; subst.
  - apply lookup_insert_eq.
  - by apply lookup_insert_ne.
  - apply lookup_delete_eq.
  - by apply lookup_delete_ne.
Qed.

Lemma assign_defined_lookup (key : string) (p : option value) (o : obj) (k : string) :
  Server.assign_defined key p o !! k
  = if decide (key = k) then (match p with Some v => Some v | None => o !! k end)
    else o !! k.
Proof.
  unfold Server.assign_defined. destruct p as [v|]; case_decide as Hk; subst; try done.
  - apply lookup_insert_eq.
  - by apply lookup_insert_ne.
Qed.

(** Reading back a written configuration. *)
Lemma loadConfig_stored (c : obj) (k : string) :
  Server.loadConfig (Stored c) !! k
  = match c !! k with
    | Some v => Some v
    | None => Server.DEFAULT_CONFIG !! k
    end.
Proof.
  simpl. unfold spread. destruct (c !! k) as [v|] eqn:Hc.
  - by apply lookup_union_Some_l.
  - by rewrite lookup_union_r.
Qed.

Lemma loadConfig_kept (c : obj) (f : file obj) (k : string) :
  c !! k = Server.loadConfig f !! k →
  Server.loadConfig (Stored c) !! k = Server.loadConfig f !! k.
Proof.
  intros Hc. rewrite loadConfig_stored, Hc.
  destruct (Server.loadConfig f !! k) eqn:Hl; [done|].
  by apply (loadConfig_default f).
Qed.

End ConfigRoutes.

(** X4.  Saving a location overwrites the three location fields and keeps
    every other field.  A field the request leaves out is not kept: it is
    removed from the file and reads back as the built-in default. *)
Theorem X4_location_save (f : file obj) (body : obj) (k : string) :
  let f' := (Server.post_location f body).1 in
  let default := fun key (p : option value) =>
    match p with Some v => Some v | None => Server.DEFAULT_CONFIG !! key end in
  Server.loadConfig f' !! "latitude" = default "latitude" (body !! "latitude")
  ∧ Server.loadConfig f' !! "longitude" = default "longitude" (body !! "longitude")
  ∧ Server.loadConfig f' !! "locationName" = default "locationName" (body !! "name")
  ∧ (k ≠ "latitude" → k ≠ "longitude" → k ≠ "locationName" →
     Server.loadConfig f' !! k = Server.loadConfig f !! k).
Proof.
  intros f' default. unfold f', Server.post_location. cbn [fst].
  repeat split.
  - rewrite loadConfig_stored, !with_prop_lookup. by repeat case_decide.
  - rewrite loadConfig_stored, !with_prop_lookup. by repeat case_decide.
  - rewrite loadConfig_stored, !with_prop_lookup. by repeat case_decide.
  - intros H1 H2 H3. apply loadConfig_kept.
    rewrite !with_prop_lookup. by repeat case_decide.
Qed.

(** A location saved without a name, over a file that had one: the name
    reads back as the default, the office code is kept. *)
Lemma X4_location_save_witness :
  let f := Stored (<["locationName" := VStr "Pelabuhan Anggrek"]>
                     {["kodeKantor" := VStr "004036057000001"]}) in
  let body := <["latitude" := num 1]> {["longitude" := num 122]} in
  Server.loadConfig (Server.post_location f body).1 !! "locationName"
  = Some (VStr "KSOP Gorontalo")
  ∧ Server.loadConfig (Server.post_location f body).1 !! "kodeKantor"
    = Some (VStr "004036057000001").
Proof.
  intros f body.
  destruct (X4_location_save f body "kodeKantor") as (_ & _ & Hname & Hkeep).
  split.
  - rewrite Hname. reflexivity.
  - rewrite Hkeep by done. reflexivity.
Defined.

(** X5.  Saving the messaging credentials writes the four credential
    fields that the request carries, under their configuration names, and
    nothing else: a credential left out keeps its value, and any other
    property of the request is ignored. *)
Theorem X5_fonnte_save (f : file obj) (body : obj) (k : string) :
  let f' := (Server.post_fonnte_save f body).1 in
  let kept := fun key (p : option value) =>
    match p with Some v => Some v | None => Server.loadConfig f !! key end in
  Server.loadConfig f' !! "fonnteAccountToken"
  = kept "fonnteAccountToken" (body !! "accountToken")
  ∧ Server.loadConfig f' !! "fonnteToken" = kept "fonnteToken" (body !! "deviceToken")
  ∧ Server.loadConfig f' !! "fonnteDeviceNumber"
    = kept "fonnteDeviceNumber" (body !! "deviceNumber")
  ∧ Server.loadConfig f' !! "fonnteDeviceName"
    = kept "fonnteDeviceName" (body !! "deviceName")
  ∧ (k ≠ "fonnteAccountToken" → k ≠ "fonnteToken" →
     k ≠ "fonnteDeviceNumber" → k ≠ "fonnteDeviceName" →
     Server.loadConfig f' !! k = Server.loadConfig f !! k).
Proof.
  intros f' kept. unfold f', Server.post_fonnte_save. cbn [fst].
  assert (Hread : ∀ c key p,
             c !! key = kept key p →
             Server.loadConfig (Stored c) !! key = kept key p).
  { intros c key p Hc. rewrite loadConfig_stored, Hc. unfold kept.
    destruct p; [done|].
    destruct (Server.loadConfig f !! key) eqn:Hl; [done|].
    by apply (loadConfig_default f). }
  repeat split.
  - apply Hread. rewrite !assign_defined_lookup. by repeat case_decide.
  - apply Hread. rewrite !assign_defined_lookup. by repeat case_decide.
  - apply Hread. rewrite !assign_defined_lookup. by repeat case_decide.
  - apply Hread. rewrite !assign_defined_lookup. by repeat case_decide.
  - intros H1 H2 H3 H4. apply loadConfig_kept.
    rewrite !assign_defined_lookup. by repeat case_decide.
Qed.

(** A request with a device token and a stray [latitude]: the token is
    stored, the latitude of the configuration is untouched. *)
Lemma X5_fonnte_save_witness :
  let body := <["deviceToken" := VStr "abc"]> {["latitude" := num 9]} in
  Server.loadConfig (Server.post_fonnte_save Absent body).1 !! "fonnteToken"
  = Some (VStr "abc")
  ∧ Server.loadConfig (Server.post_fonnte_save Absent body).1 !! "latitude"
    = Some (dec 537831 1000000).
Proof.
  intros body.
  destruct (X5_fonnte_save Absent body "latitude") as (_ & Htoken & _ & _ & Hkeep).
  split.
  - rewrite Htoken. reflexivity.
  - rewrite Hkeep by done. reflexivity.
Defined.

(** ** The roster, continued *)

Section RosterEdits.

Implicit Types (users : list obj) (u v body : obj).

Lemma filter_sublist {A} (p : A → bool) (l : list A) :
  List.filter p l `sublist_of` l.
Proof.
  induction l as [|x l IH]; simpl; [constructor|].
  destruct (p x); by constructor.
Qed.

Lemma filter_all {A} (p : A → bool) (l : list A) :
  (∀ x, x ∈ l → p x = true) → List.filter p l = l.
Proof.
  induction l as [|x l IH]; simpl; intros H; [done|].
  rewrite (H x (list_elem_of_here _ _)). f_equal.
  apply IH. intros y Hy. apply H. by apply list_elem_of_further.
Qed.

Lemma findIndex_alter {A} (p : A → bool) (g : A → A) (j : nat) (l : list A) :
  (∀ x, p (g x) = p x) → findIndex p (alter g j l) = findIndex p l.
Proof.
  intros Hg. revert j. induction l as [|x l IH]; intros [|j]; try done.
  - replace (alter g 0%nat (x :: l)) with (g x :: l) by reflexivity.
    cbn [findIndex]. by rewrite Hg.
  - replace (alter g (S j) (x :: l)) with (x :: alter g j l) by reflexivity.
    cbn [findIndex]. by rewrite IH.
Qed.

Lemma same_nip_toggled body u (b : bool) :
  Server.same_nip body (<["enabled" := VBool b]> u) = Server.same_nip body u.
Proof. unfold Server.same_nip, Server.nip_of. by rewrite lookup_insert_ne. Qed.

End RosterEdits.

(** X6.  A user saved under a [nip] that is not in the roster is appended
    with [enabled] set to true and [createdAt] set to the time of the
    request, whatever the request says about these two, and with every
    other submitted field as submitted.  A user saved under a [nip] that is
    in the roster keeps every field the request does not carry, so also its
    [createdAt] and its [enabled]. *)
Theorem X6_saved_user_fields (now : string) (f : file (list obj)) (body : obj)
    (k : string) :
  let users := Server.loadUsers f in
  ((∀ u, u ∈ users → Server.same_nip body u = false) →
   ∃ r, last (Server.loadUsers (Server.post_users now f body).1) = Some r
        ∧ r !! "enabled" = Some (VBool true)
        ∧ r !! "createdAt" = Some (VStr now)
        ∧ (k ≠ "enabled" → k ≠ "createdAt" → r !! k = body !! k))
  ∧ (∀ i u, findIndex (Server.same_nip body) users = Some i → users !! i = Some u →
       ∃ r, Server.loadUsers (Server.post_users now f body).1 !! i = Some r
            ∧ r !! k = match body !! k with Some v => Some v | None => u !! k end).
Proof.
  intros users. split.
  - intros Hnone. apply findIndex_None in Hnone.
    eexists. unfold Server.post_users. fold users. rewrite Hnone. cbn [fst Server.loadUsers].
    split; [apply last_snoc|].
    split; [by rewrite lookup_insert_ne, lookup_insert_eq|].
    split; [by rewrite lookup_insert_eq|].
    intros H1 H2. by rewrite !lookup_insert_ne.
  - intros i u Hfind Hu.
    unfold Server.post_users. fold users. rewrite Hfind. cbn [fst Server.loadUsers].
    exists (spread u body). split.
    + by rewrite list_lookup_alter_eq, Hu.
    + unfold spread. destruct (body !! k) as [v|] eqn:Hb.
      * by apply lookup_union_Some_l.
      * by rewrite lookup_union_r.
Qed.

(** X7.  After a delete no record with the submitted [nip] is left, every
    other record is kept, in order, and a second delete with the same
    request changes nothing. *)
Theorem X7_delete_user (f : file (list obj)) (body : obj) :
  let users := Server.loadUsers f in
  let f' := (Server.delete_users f body).1 in
  let users' := Server.loadUsers f' in
  (∀ u, u ∈ users' → Server.same_nip body u = false)
  ∧ (∀ u, u ∈ users → Server.same_nip body u = false → u ∈ users')
  ∧ users' `sublist_of` users
  ∧ ((∀ u, u ∈ users → Server.same_nip body u = false) → users' = users)
  ∧ (Server.delete_users f' body).1 = f'.
Proof.
  intros users f' users'. unfold users', f', Server.delete_users. cbn [fst Server.loadUsers].
  fold users.
  assert (Hgone : ∀ u, u ∈ List.filter (fun u => negb (Server.same_nip body u)) users →
                       Server.same_nip body u = false).
  { intros u Hu. apply list_elem_of_In, filter_In in Hu as [_ Hu].
    by apply negb_true_iff. }
  split; [exact Hgone|]. split.
  - intros u Hu Hsame. apply list_elem_of_In, filter_In.
    split; [by apply list_elem_of_In | by rewrite Hsame].
  - split; [apply filter_sublist|]. split.
    + intros Hnone. apply filter_all. intros u Hu. by rewrite Hnone.
    + f_equal. apply filter_all. intros u Hu. by rewrite Hgone.
Qed.

(** X8.  A toggle for a [nip] of the roster changes one record only, the
    first with that [nip], and in it only [enabled], which becomes the
    boolean opposite of what it counted as.  A second toggle leaves
    [enabled] at the boolean its first value counted as: a missing
    [enabled] has become [false]. *)
Theorem X8_toggle_user (f : file (list obj)) (body : obj) (i : nat) (u : obj) :
  let users := Server.loadUsers f in
  let was := truthy_prop (u !! "enabled") in
  findIndex (Server.same_nip body) users = Some i →
  users !! i = Some u →
  (Server.post_users_toggle f body).1
  = Stored (<[i := <["enabled" := VBool (negb was)]> u]> users)
  ∧ (Server.post_users_toggle (Server.post_users_toggle f body).1 body).1
    = Stored (<[i := <["enabled" := VBool was]> u]> users).
Proof.
  intros users was Hfind Hu.
  assert (Hlt : (i < length users)%nat) by by eapply lookup_lt_Some.
  assert (Hfirst : (Server.post_users_toggle f body).1
                   = Stored (<[i := <["enabled" := VBool (negb was)]> u]> users)).
  { unfold Server.post_users_toggle. fold users. rewrite Hfind. cbn [fst]. f_equal.
    apply (alter_as_insert
             (fun user => <["enabled" := VBool (negb (truthy_prop (user !! "enabled")))]> user)).
    exact Hu. }
  split; [exact Hfirst|].
  rewrite Hfirst. unfold Server.post_users_toggle. cbn [Server.loadUsers].
  assert (Hagain : findIndex (Server.same_nip body)
                     (<[i := <["enabled" := VBool (negb was)]> u]> users) = Some i).
  { rewrite <- (alter_as_insert (fun user => <["enabled" := VBool (negb was)]> user)
                  i users u Hu).
    rewrite findIndex_alter; [done|]. intros x. apply same_nip_toggled. }
  rewrite Hagain. cbn [fst]. f_equal.
  rewrite (alter_as_insert _ i _ (<["enabled" := VBool (negb was)]> u))
    by (by apply list_lookup_insert_eq).
  rewrite list_insert_insert_eq. f_equal.
  rewrite lookup_insert_eq. cbn [truthy_prop truthy].
  rewrite negb_involutive. apply insert_insert_eq.
Qed.

(** A record without [enabled] counts as disabled: one toggle enables it,
    the next leaves it with [enabled: false]. *)
Lemma X8_toggle_user_witness :
  let u := {["nip" := VStr "1001"]} : obj in
  (Server.post_users_toggle (Stored [u]) {["nip" := VStr "1001"]}).1
  = Stored [<["enabled" := VBool true]> u]
  ∧ (Server.post_users_toggle
       (Server.post_users_toggle (Stored [u]) {["nip" := VStr "1001"]}).1
       {["nip" := VStr "1001"]}).1
    = Stored [<["enabled" := VBool false]> u].
Proof.
  intros u.
  exact (X8_toggle_user (Stored [u]) {["nip" := VStr "1001"]} 0 u eq_refl eq_refl).
Defined.

(** ** The log shown on the dashboard *)

Section DashboardLogs.

Lemma slice_last_slice {A} (n k : nat) (l : list A) :
  (n ≤ k)%nat → slice_last n (slice_last k l) = slice_last n l.
Proof.
  intros Hnk. unfold slice_last. rewrite length_drop, drop_drop. f_equal. lia.
Qed.

Lemma last_slice_last {A} (n : nat) (l : list A) :
  (0 < n)%nat → last (slice_last n l) = last l.
Proof.
  intros Hn. unfold slice_last.
  destruct l as [|x l] using rev_ind; [done|].
  rewrite length_app. simpl.
  rewrite drop_app_le by lia. by rewrite !last_snoc.
Qed.

End DashboardLogs.

(** X9.  The dashboard page shows the 20 most recent entries of the log
    file, the most recent first. *)
Theorem X9_dashboard_logs (f : file (list obj)) :
  Server.dashboard_logs f = reverse (slice_last 20 (contents f))
  ∧ (length (Server.dashboard_logs f) ≤ 20)%nat
  ∧ head (Server.dashboard_logs f) = last (contents f).
Proof.
  assert (Heq : Server.dashboard_logs f = reverse (slice_last 20 (contents f))).
  { unfold Server.dashboard_logs. destruct f as [|err|logs]; simpl; try done.
    by rewrite slice_last_slice by lia. }
  rewrite Heq. split; [done|]. split.
  - rewrite length_reverse, slice_last_length. lia.
  - rewrite head_reverse. apply last_slice_last. lia.
Qed.

(** ** What an attempt keeps and emits *)

Section Respects.

Context {S E : Type} (P : S → Prop) (Q : E → Prop).

Lemma respects_ret {A} (a : A) : respects P Q (mret a : prog S E A).
Proof. intros s Hs. split; [done|constructor]. Qed.

Lemma respects_throw {A} (err : string) : respects P Q (throw err : prog S E A).
Proof. intros s Hs. split; [done|constructor]. Qed.

Lemma respects_get : respects P Q (get : prog S E S).
Proof. intros s Hs. split; [done|constructor]. Qed.

Lemma respects_emit (e : E) : Q e → respects P Q (emit e : prog S E unit).
Proof. intros He s Hs. split; [done|]. by repeat constructor. Qed.

Lemma respects_modify (f : S → S) :
  (∀ s, P s → P (f s)) → respects P Q (modify f : prog S E unit).
Proof. intros Hf s Hs. split; [by apply Hf|constructor]. Qed.

Lemma respects_bind {A B} (p : prog S E A) (k : A → prog S E B) :
  respects P Q p → (∀ a, respects P Q (k a)) → respects P Q (p ≫= k).
Proof.
  intros Hp Hk s Hs. unfold mbind, prog_bind, bind.
  destruct (Hp s Hs) as [Hs1 Ht1]. destruct (p s) as [[[a|err] s1] t1]; [|done].
  destruct (Hk a s1 Hs1) as [Hs2 Ht2]. destruct (k a s1) as [[o s2] t2].
  split; [done|]. apply Forall_app. done.
Qed.

Lemma respects_try_catch {A} (p : prog S E A) (handler : string → prog S E A) :
  respects P Q p → (∀ err, respects P Q (handler err)) →
  respects P Q (try_catch p handler).
Proof.
  intros Hp Hh s Hs. unfold try_catch.
  destruct (Hp s Hs) as [Hs1 Ht1]. destruct (p s) as [[[a|err] s1] t1]; [done|].
  destruct (Hh err s1 Hs1) as [Hs2 Ht2]. destruct (handler err s1) as [[o s2] t2].
  split; [done|]. apply Forall_app. done.
Qed.

Lemma respects_when (b : bool) (p : prog S E unit) :
  respects P Q p → respects P Q (when b p).
Proof. destruct b; [done|]. intros _. apply respects_ret. Qed.

End Respects.

Section AttemptRespects.

Variable display : option value → string.
Variable w : Checkin.world.
Variable P : Checkin.handles → Prop.
Variable Q : Checkin.event → Prop.

(** Everything an attempt emits that is not the closing of the browser. *)
Hypothesis Q_log : ∀ l msg, Q (Checkin.Log l msg).
Hypothesis Q_timeout : ∀ ms, Q (Checkin.Timeout ms).
Hypothesis Q_delay : ∀ lo hi, Q (Checkin.RandomDelay lo hi).
Hypothesis Q_screenshot : ∀ prefix, Q (Checkin.Screenshot prefix).
Hypothesis Q_did : ∀ a, a ≠ Checkin.Close → Q (Checkin.Did a).

Lemma respects_act (a : Checkin.action) :
  a ≠ Checkin.Close → respects P Q (Checkin.act w a).
Proof.
  intros Ha h Hh. unfold Checkin.act.
  destruct (Checkin.rejects w a); (split; [done|]); repeat constructor; by apply Q_did.
Qed.

Lemma respects_log (l : Checkin.level) (msg : string) :
  respects P Q (Checkin.log l msg).
Proof. apply respects_emit, Q_log. Qed.

Lemma respects_navigate (retries call : nat) :
  respects P Q (Checkin.navigate w retries call).
Proof.
  revert call. induction retries as [|remaining IH]; intros call; simpl.
  - apply respects_ret.
  - apply respects_try_catch; [by apply respects_act|]. intros err.
    destruct (remaining =? 0)%nat; [apply respects_throw|].
    apply respects_bind; [apply respects_log|]. intros _.
    apply respects_bind; [apply respects_emit, Q_timeout|]. intros _.
    apply IH.
Qed.

Lemma respects_classify (pageContent pageTitle pageUrl : string) (time : option string) :
  respects P Q (Checkin.classify pageContent pageTitle pageUrl time).
Proof.
  unfold Checkin.classify.
  repeat (match goal with |- context [if ?b then _ else _] => destruct b end;
          [apply respects_ret|]).
  apply respects_bind; [apply respects_emit, Q_screenshot|]. intros _.
  apply respects_ret.
Qed.

End AttemptRespects.

Ltac respects_side :=
  try (intros; simpl in *; first [done | congruence | discriminate]).

Ltac respects_steps :=
  repeat first
    [ apply respects_ret | apply respects_throw | apply respects_get
    | apply respects_bind; [|intros ?]
    | apply respects_try_catch; [|intros ?]
    | apply respects_when
    | apply respects_navigate; respects_side
    | apply respects_classify; respects_side
    | apply respects_act; respects_side
    | apply respects_emit; respects_side
    | apply respects_modify; respects_side
    | progress unfold Checkin.log, Checkin.saveScreenshot, Checkin.randomDelay,
        Checkin.randomMouseMove, Checkin.extractCheckinTime ].

Section BrowserClosed.

Variable display : option value → string.
Variable w : Checkin.world.
Variable c : Checkin.config.

Let not_close (e : Checkin.event) : Prop := e ≠ Checkin.Did Checkin.Close.

(** The body of the outer [try] never closes the browser. *)
Lemma attempt_never_closes (h : Checkin.handles) :
  Forall not_close (trace_of (Checkin.attempt display w c h)).
Proof.
  assert (H : respects (fun _ => True) not_close (Checkin.attempt display w c)).
  { unfold Checkin.attempt, not_close. respects_steps. }
  by apply H.
Qed.

(** Once the browser is there, the rest of an attempt keeps it. *)
Lemma launched_stays {A} (l : Checkin.level) (msg : string)
    (rest : prog Checkin.handles Checkin.event A) :
  respects (fun h => Checkin.browser h = true) (fun _ => True) rest →
  Checkin.rejects w Checkin.Launch = None →
  Checkin.browser
    (state_of ((Checkin.log l msg;; Checkin.act w Checkin.Launch;;
                modify (fun h => Checkin.Handles true (Checkin.page h));; rest)
                 Checkin.start))
  = true.
Proof.
  intros Hrest Hlaunch.
  unfold mbind, prog_bind, bind, Checkin.log, Checkin.act, emit, modify.
  rewrite Hlaunch. cbn [fst snd Checkin.page Checkin.start].
  destruct (Hrest (Checkin.Handles true false) eq_refl) as [Hkept _].
  destruct (rest (Checkin.Handles true false)) as [[o h1] t1]. exact Hkept.
Qed.

Lemma attempt_keeps_browser :
  Checkin.rejects w Checkin.Launch = None →
  Checkin.browser (state_of (Checkin.attempt display w c Checkin.start)) = true.
Proof.
  intros Hlaunch. unfold Checkin.attempt.
  apply launched_stays; [|done]. respects_steps.
Qed.

End BrowserClosed.

(** X10.  An attempt whose browser was launched closes it exactly once, as
    its last action, whether the attempt returns or throws; when the
    closing itself fails, that error is what the caller gets, in place of
    the outcome of the attempt.  An attempt whose launch fails throws the
    launch error after logging it, with no screenshot and no closing. *)
Theorem X10_browser_always_closed
    (display : option value → string) (w : Checkin.world) (c : Checkin.config) :
  let r := Checkin.performCheckin display w c Checkin.start in
  (Checkin.rejects w Checkin.Launch = None →
   ∃ before,
     trace_of r
     = before ++ Checkin.Did Checkin.Close
         :: match Checkin.rejects w Checkin.Close with
            | None => [Checkin.Log Checkin.Info "🔒 Browser closed"]
            | Some _ => []
            end
     ∧ Forall (fun e => e ≠ Checkin.Did Checkin.Close) before
     ∧ (∀ err, Checkin.rejects w Checkin.Close = Some err → result_of r = Thrown err))
  ∧ (∀ err, Checkin.rejects w Checkin.Launch = Some err →
       r = (Thrown err, Checkin.start,
            [Checkin.Log Checkin.Info "🌐 Launching browser...";
             Checkin.Did Checkin.Launch;
             Checkin.Log Checkin.Error ("❌ Browser error: " +:+ err)])).
Proof.
  intros r. split.
  - intros Hlaunch.
    pose proof (attempt_keeps_browser display w c Hlaunch) as Hkept.
    pose proof (attempt_never_closes display w c Checkin.start) as Hquiet.
    unfold r, Checkin.performCheckin, try_finally, try_catch.
    unfold state_of, trace_of in Hkept, Hquiet.
    destruct (Checkin.attempt display w c Checkin.start) as [[[res|err] [b p]] t].
    + cbn in Hkept. subst b.
      unfold mbind, prog_bind, bind, get, when, Checkin.act, Checkin.log, emit.
      cbn [fst snd Checkin.browser].
      exists t. destruct (Checkin.rejects w Checkin.Close) as [cerr|];
        cbn; (split; [done|]); (split; [done|]); intros e He; congruence.
    + cbn in Hkept. subst b.
      unfold mbind, prog_bind, bind, get, when, throw, Checkin.act, Checkin.log,
        Checkin.saveScreenshot, emit, mret, prog_ret, ret.
      cbn [fst snd Checkin.browser Checkin.page].
      exists (t ++ Checkin.Log Checkin.Error ("❌ Browser error: " +:+ err)
                :: (if p then [Checkin.Screenshot "error"] else [])).
      assert (Hbefore : Forall (fun e => e ≠ Checkin.Did Checkin.Close)
                (t ++ Checkin.Log Checkin.Error ("❌ Browser error: " +:+ err)
                   :: (if p then [Checkin.Screenshot "error"] else []))).
      { apply Forall_app. split; [done|].
        destruct p; repeat constructor; discriminate. }
      destruct p, (Checkin.rejects w Checkin.Close) as [cerr|]; cbn;
        (split; [by rewrite <- ?app_assoc|]); (split; [done|]);
        intros e He; congruence.
  - intros err Hlaunch.
    unfold r, Checkin.performCheckin, Checkin.attempt, try_finally, try_catch.
    unfold mbind, prog_bind, bind, Checkin.log, Checkin.act, emit.
    rewrite Hlaunch. reflexivity.
Qed.

(** A portal that never shows the login form: the attempt throws, and the
    browser is closed all the same. *)
Lemma X10_browser_always_closed_witness :
  let w := Checkin.World
             (fun a => match a with
                       | Checkin.WaitForNipInput => Some "Waiting for selector failed"
                       | _ => None
                       end)
             "https://skemaraja.kemenhub.go.id/maintenance" "Maintenance"
             (Checkin.PageView "" "" "" None None) 7 "07.00.05" in
  let c := Checkin.Config (Some (VStr "1001")) (Some (VStr "1001"))
             (Some (VStr "2")) (Some (VStr "1")) None None true 50 in
  ∃ before,
    trace_of (Checkin.performCheckin (fun _ => "") w c Checkin.start)
    = before ++ [Checkin.Did Checkin.Close; Checkin.Log Checkin.Info "🔒 Browser closed"]
    ∧ Forall (fun e => e ≠ Checkin.Did Checkin.Close) before.
Proof.
  intros w c.
  destruct (X10_browser_always_closed (fun _ => "") w c) as [Hclosed _].
  destruct (Hclosed eq_refl) as (before & Htrace & Hbefore & _).
  exists before. split; [exact Htrace | exact Hbefore].
Defined.

(** X11.  When the page loads at the first call but the login form never
    appears, the attempt throws "Form login tidak ditemukan" with the
    address of the page it is on; it has taken the screenshots
    [page_loaded], [after_geolocation], [form_not_found] and [error], in
    that order, and has typed nothing.  A failure of the geolocation
    trigger before that changes none of this. *)
Theorem X11_form_not_found
    (display : option value → string) (w : Checkin.world) (c : Checkin.config)
    (formError : string) :
  Checkin.browser_sound w →
  Checkin.rejects w (Checkin.Goto 0) = None →
  Checkin.rejects w Checkin.WaitForNipInput = Some formError →
  Checkin.rejects w Checkin.ReadFormTitle = None →
  let r := Checkin.performCheckin display w c Checkin.start in
  result_of r = Thrown ("Form login tidak ditemukan. URL: " +:+ Checkin.form_url w)
  ∧ Checkin.screenshots (trace_of r)
    = ["page_loaded"; "after_geolocation"; "form_not_found"; "error"]
  ∧ ¬ In (Checkin.Did Checkin.TypeNip) (trace_of r)
  ∧ ¬ In (Checkin.Did Checkin.TypePassword) (trace_of r)
  ∧ last (trace_of r) = Some (Checkin.Log Checkin.Info "🔒 Browser closed").
Proof.
  intros (H1 & H2 & H3 & H4 & H5 & H6 & H7 & H8) G0 Hform Htitle r.
  unfold r, Checkin.performCheckin, Checkin.attempt, try_finally, try_catch.
  unfold mbind, prog_bind, bind, Checkin.act, Checkin.log, Checkin.saveScreenshot,
    Checkin.randomDelay, emit, modify, get, when, throw.
  rewrite H1, H2, H3, H4, H5, H6, H7.
  cbn -[Checkin.navigate String.append].
  rewrite navigate_unfold, G0.
  cbn -[String.append].
  destruct (Checkin.rejects w Checkin.TriggerGeolocation);
    cbn -[String.append]; rewrite Hform; cbn -[String.append];
    rewrite Htitle; cbn -[String.append]; rewrite H8; cbn -[String.append];
    (split; [reflexivity|]); (split; [reflexivity|]);
    (split; [intros Hin; repeat (destruct Hin as [Hin|Hin]; [discriminate|]); exact Hin|]);
    (split; [intros Hin; repeat (destruct Hin as [Hin|Hin]; [discriminate|]); exact Hin|]);
    reflexivity.
Qed.

Lemma X11_form_not_found_witness :
  let w := Checkin.World
             (fun a => match a with
                       | Checkin.WaitForNipInput => Some "Waiting for selector failed"
                       | _ => None
                       end)
             "https://skemaraja.kemenhub.go.id/maintenance" "Maintenance"
             (Checkin.PageView "" "" "" None None) 7 "07.00.05" in
  let c := Checkin.Config (Some (VStr "1001")) (Some (VStr "1001"))
             (Some (VStr "2")) (Some (VStr "1")) None None true 50 in
  result_of (Checkin.performCheckin (fun _ => "") w c Checkin.start)
  = Thrown "Form login tidak ditemukan. URL: https://skemaraja.kemenhub.go.id/maintenance".
Proof.
  intros w c.
  apply (X11_form_not_found (fun _ => "") w c "Waiting for selector failed");
    [repeat split | reflexivity..].
Defined.

(** X12.  When no step of the browser fails, except possibly the reading
    of the results table, the attempt returns the outcome of the classifier
    for the page that followed the submission, with the time read from the
    table (the current time when the reading throws), takes the screenshot
    [unknown_result] exactly when the page is not recognised, and closes
    the browser last. *)
Theorem X12_attempt_that_goes_through
    (display : option value → string) (w : Checkin.world) (c : Checkin.config) :
  (∀ a, a ≠ Checkin.EvaluateTable → Checkin.rejects w a = None) →
  let v := Checkin.view w in
  let class := Checkin.first_match Checkin.page_groups (Checkin.content v, Checkin.url v) in
  let time := match Checkin.rejects w Checkin.EvaluateTable with
              | Some _ => Some (Checkin.dots_to_colons (Checkin.witaClock w))
              | None => Checkin.readTable v (Checkin.sessionColumn (Checkin.witaHour w))
              end in
  let r := Checkin.performCheckin display w c Checkin.start in
  result_of r = Returned (Checkin.outcome_of class (Checkin.title v) time)
  ∧ Checkin.screenshots (trace_of r)
    = ["page_loaded"; "after_geolocation"]
      ++ match class with Checkin.Unrecognized => ["unknown_result"] | _ => [] end
  ∧ last (trace_of r) = Some (Checkin.Log Checkin.Info "🔒 Browser closed").
Proof.
  intros Hok v class time r.
  unfold r, class, time, v. rewrite first_match_page_groups.
  unfold Checkin.performCheckin, Checkin.attempt, Checkin.randomMouseMove,
    Checkin.extractCheckinTime, Checkin.classify, try_finally, try_catch.
  unfold mbind, prog_bind, bind, Checkin.act, Checkin.log, Checkin.saveScreenshot,
    Checkin.randomDelay, emit, modify, get, when, throw, mret, prog_ret, ret.
  remember (Checkin.rejects w Checkin.EvaluateTable) as evaluated.
  rewrite !Hok by discriminate.
  cbn -[Checkin.navigate String.append Checkin.readTable Checkin.sessionColumn
         Checkin.dots_to_colons Checkin.success_markers Checkin.already_markers
         Checkin.invalid_markers Checkin.early_markers Checkin.location_markers
         strict_eq].
  rewrite navigate_unfold. rewrite !Hok by discriminate.
  cbn -[String.append Checkin.readTable Checkin.sessionColumn Checkin.dots_to_colons
         Checkin.success_markers Checkin.already_markers Checkin.invalid_markers
         Checkin.early_markers Checkin.location_markers strict_eq].
  destruct (strict_eq (Checkin.status c) (Some (VStr "2")));
    cbn -[String.append Checkin.readTable Checkin.sessionColumn Checkin.dots_to_colons
           Checkin.success_markers Checkin.already_markers Checkin.invalid_markers
           Checkin.early_markers Checkin.location_markers];
    destruct evaluated;
    cbn -[String.append Checkin.readTable Checkin.sessionColumn Checkin.dots_to_colons
           Checkin.success_markers Checkin.already_markers Checkin.invalid_markers
           Checkin.early_markers Checkin.location_markers];
    destruct (Checkin.success_markers _ _); [by repeat split| |by repeat split| |
                                              by repeat split| |by repeat split|];
    (destruct (Checkin.already_markers _); [by repeat split|]);
    (destruct (Checkin.invalid_markers _); [by repeat split|]);
    (destruct (Checkin.early_markers _); [by repeat split|]);
    (destruct (Checkin.location_markers _); by repeat split).
Qed.

Lemma X12_attempt_that_goes_through_witness :
  let v := Checkin.PageView "<h3>Data Absensi</h3>" "SKEMA RAJA"
             "https://skemaraja.kemenhub.go.id/home"
             (Some [["07-Jan-2026"; "07-Jan-2026 07:12:45"; "-"; "-"]]) None in
  let w := Checkin.World (fun _ => None) "" "" v 7 "07.12.50" in
  let c := Checkin.Config (Some (VStr "1001")) (Some (VStr "1001"))
             (Some (VStr "2")) (Some (VStr "1")) None None true 50 in
  result_of (Checkin.performCheckin (fun _ => "") w c Checkin.start)
  = Returned (Checkin.Result true "Check-in berhasil! (07:12:45)" (Some "07:12:45")).
Proof.
  intros v w c.
  destruct (X12_attempt_that_goes_through (fun _ => "") w c (fun _ _ => eq_refl))
    as [Hres _].
  rewrite Hres. reflexivity.
Defined.

(** ** Steps whose failure an attempt passes over *)

Section SameEnd.

Context {S E : Type}.

Lemma same_end_refl {A} (p : prog S E A) : same_end p p.
Proof. by intros s. Qed.

Lemma same_end_bind {A B} (p q : prog S E A) (k k' : A → prog S E B) :
  same_end p q → (∀ a, same_end (k a) (k' a)) → same_end (p ≫= k) (q ≫= k').
Proof.
  intros Hp Hk s. unfold mbind, prog_bind, bind.
  specialize (Hp s). destruct (p s) as [[o s1] t1], (q s) as [[o' s1'] t1'].
  simpl in Hp. injection Hp as <- <-. destruct o as [a|err]; [|done].
  specialize (Hk a s1). destruct (k a s1) as [[o2 s2] t2], (k' a s1) as [[o2' s2'] t2'].
  simpl in Hk. by injection Hk as <- <-.
Qed.

Lemma same_end_try_catch {A} (p q : prog S E A) (h h' : string → prog S E A) :
  same_end p q → (∀ err, same_end (h err) (h' err)) →
  same_end (try_catch p h) (try_catch q h').
Proof.
  intros Hp Hh s. unfold try_catch.
  specialize (Hp s). destruct (p s) as [[o s1] t1], (q s) as [[o' s1'] t1'].
  simpl in Hp. injection Hp as <- <-. destruct o as [a|err]; [done|].
  specialize (Hh err s1).
  destruct (h err s1) as [[o2 s2] t2], (h' err s1) as [[o2' s2'] t2'].
  simpl in Hh. by injection Hh as <- <-.
Qed.

Lemma same_end_try_finally {A} (p q : prog S E A) (fin fin' : prog S E unit) :
  same_end p q → same_end fin fin' → same_end (try_finally p fin) (try_finally q fin').
Proof.
  intros Hp Hf s. unfold try_finally.
  specialize (Hp s). destruct (p s) as [[o s1] t1], (q s) as [[o' s1'] t1'].
  simpl in Hp. injection Hp as <- <-.
  specialize (Hf s1). destruct (fin s1) as [[o2 s2] t2], (fin' s1) as [[o2' s2'] t2'].
  simpl in Hf. injection Hf as <- <-. by destruct o2.
Qed.

Lemma same_end_when (b : bool) (p q : prog S E unit) :
  same_end p q → same_end (when b p) (when b q).
Proof. destruct b; [done|]. intros _. apply same_end_refl. Qed.

End SameEnd.

Section Tolerated.

Variable w : Checkin.world.

(** A tolerated step under a handler that just goes on ends like the step
    that succeeded. *)
Lemma same_end_tolerated (a : Checkin.action)
    (h h' : string → prog Checkin.handles Checkin.event unit) :
  Checkin.tolerated a = true →
  (∀ err s, (h err s).1 = (Returned tt, s)) →
  same_end (try_catch (Checkin.act w a) h)
           (try_catch (Checkin.act (Checkin.forgiving w) a) h').
Proof.
  intros Ha Hh s. unfold try_catch, Checkin.act. simpl Checkin.rejects. rewrite Ha.
  destruct (Checkin.rejects w a) as [err|]; [|done].
  specialize (Hh err s). destruct (h err s) as [[o s1] t1]. simpl in Hh.
  by injection Hh as -> ->.
Qed.

(** A step that is not tolerated is the same step in both worlds. *)
Lemma same_end_act (a : Checkin.action) :
  Checkin.tolerated a = false →
  same_end (Checkin.act w a) (Checkin.act (Checkin.forgiving w) a).
Proof. intros Ha s. unfold Checkin.act. simpl Checkin.rejects. by rewrite Ha. Qed.

Lemma same_end_navigate (retries call : nat) :
  same_end (Checkin.navigate w retries call)
           (Checkin.navigate (Checkin.forgiving w) retries call).
Proof.
  revert call. induction retries as [|remaining IH]; intros call; simpl.
  - apply same_end_refl.
  - apply same_end_try_catch; [by apply same_end_act|]. intros err.
    destruct (remaining =? 0)%nat; [apply same_end_refl|].
    apply same_end_bind; [apply same_end_refl|]. intros _.
    apply same_end_bind; [apply same_end_refl|]. intros _. apply IH.
Qed.

End Tolerated.

Ltac same_end_steps :=
  repeat first
    [ apply same_end_tolerated; [reflexivity | intros; reflexivity]
    | apply same_end_navigate
    | apply same_end_act; reflexivity
    | apply same_end_bind; [|intros ?]
    | apply same_end_try_catch; [|intros ?]
    | apply same_end_when
    | apply same_end_refl ].

(** X13.  A failure of the geolocation trigger, of the wait for the
    location field or of the wait for the navigation after the submission
    never changes what an attempt returns or throws: the attempt ends as it
    does in the world where these three steps succeed. *)
Theorem X13_tolerated_steps
    (display : option value → string) (w : Checkin.world) (c : Checkin.config) :
  result_of (Checkin.performCheckin display w c Checkin.start)
  = result_of (Checkin.performCheckin display (Checkin.forgiving w) c Checkin.start).
Proof.
  assert (H : same_end (Checkin.performCheckin display w c)
                       (Checkin.performCheckin display (Checkin.forgiving w) c)).
  { unfold Checkin.performCheckin, Checkin.attempt, Checkin.randomMouseMove,
      Checkin.extractCheckinTime.
    apply same_end_try_finally.
    - apply same_end_try_catch; [|intros ?; apply same_end_refl].
      same_end_steps.
    - same_end_steps. }
  unfold result_of. by rewrite (H Checkin.start).
Qed.

(** ** Text containment *)

Section Containment.

Lemma append_cons (x : ascii) (a b : string) : String x a +:+ b = String x (a +:+ b).
Proof. reflexivity. Qed.

Lemma append_assoc (a b c : string) : (a +:+ b) +:+ c = a +:+ (b +:+ c).
Proof. induction a as [|x a IH]; [done|]. by rewrite !append_cons, IH. Qed.

Lemma prefix_spec (needle s : string) :
  String.prefix needle s = true ↔ ∃ rest, s = needle +:+ rest.
Proof.
  revert s. induction needle as [|x needle IH]; intros s.
  - split; [intros _; by exists s | by destruct s].
  - destruct s as [|y s]; simpl.
    + split; [done | by intros [rest Hrest]].
    + destruct (ascii_dec x y) as [->|Hne].
      * rewrite IH. split; intros [rest Hrest]; exists rest;
          rewrite append_cons in *; congruence.
      * split; [done | intros [rest Hrest]; rewrite append_cons in Hrest; congruence].
Qed.

(** [includes] is containment: the needle sits somewhere in the text. *)
Lemma includes_spec (s needle : string) :
  includes s needle = true ↔ ∃ before after, s = before +:+ needle +:+ after.
Proof.
  induction s as [|c s IH].
  - replace (includes "" needle)
      with (if String.prefix needle "" then true else false) by reflexivity.
    destruct (String.prefix needle "") eqn:Hp.
    + split; [|done]. intros _. apply prefix_spec in Hp as [rest Hrest].
      by exists "", rest.
    + split; [done|]. intros (before & after & Heq).
      assert (String.prefix needle "" = true) as Hp'; [|congruence].
      apply prefix_spec. destruct before; [by exists after|done].
  - rewrite includes_cons. destruct (String.prefix needle (String c s)) eqn:Hp.
    + split; [|done]. intros _. apply prefix_spec in Hp as [rest Hrest].
      by exists "", rest.
    + rewrite IH. split.
      * intros (before & after & ->). by exists (String c before), after.
      * intros (before & after & Heq). destruct before as [|x before].
        -- assert (String.prefix needle (String c s) = true) as Hp'; [|congruence].
           apply prefix_spec. by exists after.
        -- rewrite append_cons in Heq. injection Heq as -> ->. by exists before, after.
Qed.

(** A text that contains a phrase contains the end of the phrase. *)
Lemma includes_tail (s head tail : string) :
  includes s (head +:+ tail) = true → includes s tail = true.
Proof.
  rewrite !includes_spec. intros (before & after & ->).
  exists (before +:+ head), after. by rewrite !append_assoc.
Qed.

End Containment.

(** X14.  The marker "sudah tercatat" of the already-submitted group never
    decides: a page that contains it contains the success keyword
    "tercatat", so it is classified as a success, with the success
    message. *)
Theorem X14_shadowed_marker (pageContent pageUrl : string) :
  includes pageContent "sudah tercatat" = true →
  Checkin.first_match Checkin.page_groups (pageContent, pageUrl) = Checkin.Succeeded.
Proof.
  intros Hin.
  assert (Hkey : includes pageContent "tercatat" = true)
    by apply (includes_tail pageContent "sudah " "tercatat" Hin).
  rewrite first_match_page_groups. unfold Checkin.success_markers.
  rewrite Hkey. by rewrite !orb_true_r.
Qed.

Lemma X14_shadowed_marker_witness :
  Checkin.first_match Checkin.page_groups
    ("<p>Anda sudah tercatat hari ini</p>", "https://skemaraja.kemenhub.go.id/")
  = Checkin.Succeeded.
Proof. apply X14_shadowed_marker. reflexivity. Defined.

(** ** The recipient of a notification *)

Section Recipient.

Lemma digits_only_digits (s : string) :
  Forall (fun c => Checkin.is_digit c = true) (list_ascii_of_string (Checkin.digits_only s)).
Proof.
  induction s as [|c s IH]; simpl; [constructor|].
  destruct (Checkin.is_digit c) eqn:Hc; [|done]. simpl. by constructor.
Qed.

Lemma digits_only_of_digits (s : string) :
  Forall (fun c => Checkin.is_digit c = true) (list_ascii_of_string s) →
  Checkin.digits_only s = s.
Proof.
  induction s as [|c s IH]; simpl; [done|].
  intros [Hc Hs]%Forall_cons. rewrite Hc. f_equal. by apply IH.
Qed.

End Recipient.

(** X15.  Whatever is posted to the gateway goes to the send address, under
    the token as authorization, to a target made of digits only: the phone
    number of the user with every other character removed.  A number that
    already is all digits is the target as it stands. *)
Theorem X15_notification_target
    (display : option value → string) (n : Checkin.notification) (timeStr : string)
    (answer : Checkin.gateway_answer)
    (url : string) (authorization : option value) (target message : string) :
  In (Checkin.Post url authorization target message)
     (trace_of (Checkin.sendWhatsAppNotification display n timeStr answer tt)) →
  url = Checkin.FONNTE_API
  ∧ authorization = Checkin.fonnteToken n
  ∧ message = Checkin.waMessage display n timeStr
  ∧ Forall (fun c => Checkin.is_digit c = true) (list_ascii_of_string target)
  ∧ ∃ phone, Checkin.user n !! "phone" = Some (VStr phone)
             ∧ target = Checkin.digits_only phone
             ∧ (Forall (fun c => Checkin.is_digit c = true) (list_ascii_of_string phone) →
                target = phone).
Proof.
  intros Hin.
  destruct (truthy_prop (Checkin.user n !! "phone")) eqn:Hphone;
    [|rewrite notification_skipped in Hin by (by left); destruct Hin].
  destruct (truthy_prop (Checkin.fonnteToken n)) eqn:Htoken;
    [|rewrite notification_skipped in Hin by (by right); destruct Hin].
  destruct (Checkin.user n !! "phone") as [v|] eqn:Hv; [|discriminate].
  assert (Hstring : ∃ s, v = VStr s).
  { destruct v as [| | |s| |]; [| | |by exists s| |];
      unfold Checkin.sendWhatsAppNotification in Hin;
      rewrite Hv, Htoken, Hphone in Hin; destruct Hin. }
  destruct Hstring as [s ->].
  assert (Hs : s ≠ "").
  { intros ->. discriminate. }
  destruct (notification_sent display n timeStr answer s Hv Hs Htoken) as [msg Hrun].
  rewrite Hrun in Hin. destruct Hin as [Heq|[Heq|[]]]; [|discriminate].
  injection Heq as <- <- <- <-.
  split; [done|]. split; [done|]. split; [done|].
  split; [apply digits_only_digits|].
  exists s. split; [done|]. split; [done|].
  intros Hdigits. by apply digits_only_of_digits.
Qed.

Lemma X15_notification_target_witness :
  let n := Checkin.Notification
             {["phone" := VStr "+62 812-3456-7890"]} {["name" := VStr "Pagi"]}
             true "Check-in berhasil!" (Some (VStr "device-token"))
             (Some (VStr "KSOP Gorontalo")) in
  ∃ target,
    head (trace_of (Checkin.sendWhatsAppNotification (fun _ => "") n ""
                      (Checkin.FetchRejects "offline") tt))
    = Some (Checkin.Post Checkin.FONNTE_API (Some (VStr "device-token")) target
              (Checkin.waMessage (fun _ => "") n ""))
    ∧ target = "6281234567890"
    ∧ Forall (fun c => Checkin.is_digit c = true) (list_ascii_of_string target).
Proof.
  intros n. exists "6281234567890". split; [reflexivity|]. split; [reflexivity|].
  eapply (X15_notification_target (fun _ => "") n "" (Checkin.FetchRejects "offline")).
  left. reflexivity.
Defined.

(** ** The time pattern finds what is there *)

Section TimePattern.

Lemma append_nil_l (s : string) : "" +:+ s = s.
Proof. reflexivity. Qed.

(** A text that begins with a clock time matches at its start. *)
Lemma time_at_complete (t s : string) :
  Checkin.clock_shaped t = true → String.prefix t s = true →
  is_Some (Checkin.time_at s).
Proof.
  intros Hshape [rest ->]%prefix_spec.
  destruct t as [|a1 [|a2 [|a3 [|a4 [|a5 [|a6 [|a7 [|a8 [|a9 t]]]]]]]]];
    try discriminate; rewrite !append_cons, append_nil_l.
  - (* one digit for the hour *)
    unfold Checkin.clock_shaped in Hshape.
    destruct rest as [|r rest]; unfold Checkin.time_at.
    + rewrite Hshape. by eexists.
    + destruct (Checkin.is_digit a1 && Checkin.is_digit a2 && _ && _ && _ && _ && _ && _);
        [by eexists|].
      rewrite Hshape. by eexists.
  - (* two digits for the hour *)
    unfold Checkin.clock_shaped in Hshape. unfold Checkin.time_at.
    rewrite Hshape. by eexists.
Qed.

End TimePattern.

(** X16.  The pattern finds a time in a text exactly when the text
    contains something shaped like a clock time ([H:MM:SS] or
    [HH:MM:SS]); what it finds is so shaped and occurs in the text. *)
Theorem X16_time_found_iff_present (s : string) :
  is_Some (Checkin.timeMatch s)
  ↔ ∃ t, includes s t = true ∧ Checkin.clock_shaped t = true.
Proof.
  split.
  - intros [t Ht]. exists t. apply timeMatch_sound in Ht. tauto.
  - intros (t & Hin & Hshape). induction s as [|c s IH].
    + replace (includes "" t) with (if String.prefix t "" then true else false) in Hin
        by reflexivity.
      destruct (String.prefix t "") eqn:Hp; [|discriminate].
      apply prefix_spec in Hp as [rest Hrest]. destruct t; [discriminate|done].
    + rewrite timeMatch_cons. rewrite includes_cons in Hin.
      destruct (Checkin.time_at (String c s)) as [found|] eqn:Hat; [by eexists|].
      destruct (String.prefix t (String c s)) eqn:Hp.
      * destruct (time_at_complete t (String c s) Hshape Hp) as [found Hfound].
        congruence.
      * by apply IH.
Qed.

(** ** What a run keeps and emits *)

Section RunRespects.

Variable display : option value → string.
Variable w : world.
Variable P : machine → Prop.
Variable Allowed : event → Prop.

(** [P] looks at the files only. *)
Hypothesis P_files : ∀ m m',
  config_file m' = config_file m → users_file m' = users_file m →
  logs_file m' = logs_file m → P m → P m'.
Hypothesis Allowed_logger : ∀ l msg, Allowed (Logger l msg).
Hypothesis Allowed_sleep : ∀ ms, Allowed (Sleep ms).
Hypothesis Allowed_browser : ∀ k e, Allowed (Browser k e).

Lemma respects_logger (l : Checkin.level) (msg : string) :
  respects P Allowed (logger l msg).
Proof. apply respects_emit, Allowed_logger. Qed.

Lemma respects_sleep (ms : Q) : respects P Allowed (sleep ms).
Proof. apply respects_emit, Allowed_sleep. Qed.

Lemma respects_draw : respects P Allowed (draw w).
Proof. intros m Hm. split; [|constructor]. by apply (P_files m). Qed.

Lemma respects_push (r : run_result) : respects P Allowed (push r).
Proof. apply respects_modify. intros m Hm. by apply (P_files m). Qed.

Lemma respects_new_results : respects P Allowed Index.new_results.
Proof. apply respects_modify. intros m Hm. by apply (P_files m). Qed.

Lemma respects_performCheckin (c : Checkin.config) :
  respects P Allowed (Runtime.performCheckin display w c).
Proof.
  intros m Hm. unfold Runtime.performCheckin.
  destruct (Checkin.performCheckin _ _ _ _) as [[o h] t]. split.
  - by apply (P_files m).
  - apply Forall_fmap, Forall_forall. intros e _. apply Allowed_browser.
Qed.

Lemma respects_sendWhatsAppNotification (n : Checkin.notification) :
  (∀ e, Allowed (Gateway e)) →
  respects P Allowed (Runtime.sendWhatsAppNotification display w n).
Proof.
  intros Allowed_gateway m Hm. unfold Runtime.sendWhatsAppNotification.
  destruct (Checkin.sendWhatsAppNotification _ _ _ _ _) as [[o h] t]. split.
  - by apply (P_files m).
  - apply Forall_fmap, Forall_forall. intros e _. apply Allowed_gateway.
Qed.

(** The log file is the one thing [addLog] writes. *)
Lemma respects_server_log (entry : obj) :
  (∀ m f, P m → P (Machine (draws m) (attempts m) (sends m) (results m)
                           (config_file m) (users_file m) f)) →
  respects P Allowed (Server.log w entry).
Proof. intros P_logs. apply respects_modify. intros m Hm. by apply P_logs. Qed.

End RunRespects.

Ltac run_steps :=
  repeat first
    [ apply respects_ret | apply respects_throw | apply respects_get
    | apply respects_bind; [|intros ?]
    | apply respects_try_catch; [|intros ?]
    | apply respects_logger; respects_side
    | apply respects_sleep; respects_side
    | apply respects_draw; respects_side
    | apply respects_push; respects_side
    | apply respects_new_results; respects_side
    | apply respects_performCheckin; respects_side
    | apply respects_server_log; respects_side
    | apply respects_when
    | apply respects_emit; respects_side
    | apply respects_modify; respects_side ].

(** The side conditions on what is kept: the step leaves the files that
    [P] looks at alone. *)
Ltac kept_by H :=
  intros;
  match goal with
  | Hm : ?P ?m |- ?P _ => apply (H m); done
  end.

Section DashboardKeeps.

Variable display : option value → string.
Variable w : world.
Variable P : machine → Prop.
Variable Allowed : event → Prop.

(** [P] looks at the configuration and the roster only. *)
Hypothesis P_files : ∀ m m',
  config_file m' = config_file m → users_file m' = users_file m → P m → P m'.
Hypothesis Allowed_sleep : ∀ ms, Allowed (Sleep ms).
Hypothesis Allowed_browser : ∀ k e, Allowed (Browser k e).

(** A turn of the dashboard loop; the gateway is only reached with a
    device token. *)
Lemma respects_server_checkinUser (config : obj) (schedule : string) (i n : nat)
    (user : obj) :
  (truthy_prop (config !! "fonnteToken") = true → ∀ e, Allowed (Gateway e)) →
  respects P Allowed (Server.checkinUser display w config schedule i n user).
Proof.
  intros Allowed_gateway. unfold Server.checkinUser.
  apply respects_try_catch; [|intros err; run_steps; kept_by P_files].
  apply respects_bind; [run_steps; kept_by P_files|]. intros r.
  apply respects_bind; [run_steps; kept_by P_files|]. intros _.
  apply respects_bind; [run_steps; kept_by P_files|]. intros _.
  apply respects_bind; [run_steps; kept_by P_files|]. intros result.
  apply respects_bind; [run_steps; kept_by P_files|]. intros _.
  apply respects_bind; [|intros _; run_steps; kept_by P_files].
  destruct (truthy_prop (config !! "fonnteToken")); [|apply respects_ret].
  apply respects_when, respects_sendWhatsAppNotification; auto.
  intros; kept_by P_files.
Qed.

Lemma respects_server_checkinUsers (config : obj) (schedule : string) (n : nat)
    (users : list obj) (i : nat) :
  (truthy_prop (config !! "fonnteToken") = true → ∀ e, Allowed (Gateway e)) →
  respects P Allowed (Server.checkinUsers display w config schedule i n users).
Proof.
  intros Allowed_gateway. revert i. induction users as [|user rest IH]; intros i.
  - apply respects_ret.
  - cbn [Server.checkinUsers]. apply respects_bind; [|intros _; apply IH].
    by apply respects_server_checkinUser.
Qed.

Lemma respects_server_runCheckin (users : list obj) (config : obj)
    (scheduleName : string) :
  (truthy_prop (config !! "fonnteToken") = true → ∀ e, Allowed (Gateway e)) →
  respects P Allowed (Server.runCheckin display w users config scheduleName).
Proof.
  intros Allowed_gateway. unfold Server.runCheckin.
  apply respects_bind; [run_steps; kept_by P_files|]. intros _.
  apply respects_bind; [by apply respects_server_checkinUsers|]. intros _.
  run_steps; kept_by P_files.
Qed.

End DashboardKeeps.

Section LastLog.

Lemma last_addLog (now : string) (log : obj) (f : file (list obj)) :
  last (contents (Server.addLog now log f)) = Some (Server.stamp now log).
Proof.
  rewrite addLog_contents. cbn [contents].
  rewrite last_slice_last by lia. apply last_snoc.
Qed.

End LastLog.

(** X17.  A run of the dashboard never throws, whatever happens to its
    attempts: it makes one attempt per user it was given, leaves the
    configuration and the roster files as they were, and the last entry of
    the log file is then the line that the run is finished.  With no
    device token in the configuration it sends nothing to the gateway. *)
Theorem X17_dashboard_run
    (display : option value → string) (w : world) (users : list obj)
    (config : obj) (scheduleName : string) (m : machine) :
  let schedule :=
    if String.eqb scheduleName "manual" then Server.getScheduleName w
    else scheduleName in
  let r := Server.runCheckin display w users config scheduleName m in
  result_of r = Returned tt
  ∧ attempts (state_of r) = (attempts m + length users)%nat
  ∧ config_file (state_of r) = config_file m
  ∧ users_file (state_of r) = users_file m
  ∧ last (contents (logs_file (state_of r)))
    = Some (Server.stamp (iso w)
              (Server.entry "info" None
                 ("Check-in " +:+ schedule +:+ " selesai untuk "
                  +:+ pretty (length users) +:+ " user")))
  ∧ (truthy_prop (config !! "fonnteToken") = false →
     Forall (fun e => is_gateway e = false) (trace_of r)).
Proof.
  intros schedule r.
  assert (Hkept : config_file (state_of r) = config_file m
                  ∧ users_file (state_of r) = users_file m).
  { apply (respects_server_runCheckin display w
             (fun m' => config_file m' = config_file m
                        ∧ users_file m' = users_file m)
             (fun _ => True)); try done.
    intros m1 m2 Hc Hu [Hc1 Hu1]. split; congruence. }
  assert (Hquiet : truthy_prop (config !! "fonnteToken") = false →
                   Forall (fun e => is_gateway e = false) (trace_of r)).
  { intros Htoken.
    apply (respects_server_runCheckin display w (fun _ => True)
             (fun e => is_gateway e = false)); try done.
    congruence. }
  destruct Hkept as [Hconfig Husers].
  repeat match goal with |- _ ∧ _ => split end; try done.
  all: unfold r, Server.runCheckin; fold schedule;
    unfold mbind, prog_bind, bind, Server.log, modify; cbn [fst snd];
    match goal with
    | |- context [Server.checkinUsers ?d ?w0 ?c ?s 0 ?n ?us ?m0] =>
        destruct (server_checkinUsers_attempts d w0 c s n us 0 m0)
          as [Hres Hatt];
        destruct (Server.checkinUsers d w0 c s 0 n us m0) as [[o m1] t1]
    end;
    unfold result_of, state_of in *; simpl in Hres, Hatt; subst o; simpl.
  - done.
  - exact Hatt.
  - apply last_addLog.
Qed.

(** X18.  The single check-in route never throws: it makes exactly one
    attempt with the credentials of the body, answers with the success
    and the message of that attempt (or with [false] and the error, when
    the attempt throws), and leaves as last log entry one of type
    [success] or [error] accordingly.  It sends nothing to the gateway,
    device token or not, and leaves the configuration and the roster
    files alone. *)
Theorem X18_single_checkin_route
    (display : option value → string) (w : world) (body : obj) (m : machine) :
  let config := Server.loadConfig (config_file m) in
  let attempt :=
    Checkin.performCheckin display (browser_world w (attempts m))
      (Checkin.Config (body !! "nip") (body !! "password")
         (config !! "status") (config !! "shift")
         (config !! "latitude") (config !! "longitude") true 50)
      Checkin.start in
  let r := Server.post_checkin display w body m in
  ∃ resp,
    result_of r = Returned resp
    ∧ match result_of attempt with
      | Returned result =>
          Server.c_success resp = Checkin.success result
          ∧ Server.c_message resp = Checkin.message result
          ∧ Server.c_checkinTime resp = Checkin.checkinTime result
      | Thrown err =>
          Server.c_success resp = false ∧ Server.c_message resp = err
          ∧ Server.c_checkinTime resp = None
      end
    ∧ attempts (state_of r) = S (attempts m)
    ∧ config_file (state_of r) = config_file m
    ∧ users_file (state_of r) = users_file m
    ∧ (∃ e, last (contents (logs_file (state_of r))) = Some e
            ∧ e !! "type"
              = Some (VStr (if Server.c_success resp then "success" else "error")))
    ∧ Forall (fun e => is_gateway e = false) (trace_of r).
Proof.
  intros config attempt r. unfold r, Server.post_checkin.
  unfold try_catch, mbind, prog_bind, bind, get, Server.log, modify,
    Runtime.performCheckin, mret, prog_ret, ret.
  cbn [fst snd attempts]. fold config. fold attempt.
  destruct attempt as [[[result|err] h] t];
    unfold result_of, state_of, trace_of; cbn [fst snd].
  - eexists. split; [done|]. cbn [Server.c_success Server.c_message
      Server.c_checkinTime attempts config_file users_file logs_file].
    repeat match goal with |- _ ∧ _ => split end; try done.
    + eexists. split; [apply last_addLog|].
      unfold Server.stamp, Server.entry.
      rewrite lookup_insert_ne by done.
      rewrite !with_prop_lookup. repeat (case_decide; [discriminate|]).
      by rewrite lookup_insert_eq.
    + rewrite !app_nil_r. simpl.
      apply Forall_fmap, Forall_forall. done.
  - eexists. split; [done|]. cbn [Server.c_success Server.c_message
      Server.c_checkinTime attempts config_file users_file logs_file].
    repeat match goal with |- _ ∧ _ => split end; try done.
    + eexists. split; [apply last_addLog|].
      unfold Server.stamp, Server.entry.
      rewrite lookup_insert_ne by done.
      rewrite !with_prop_lookup. repeat (case_decide; [discriminate|]).
      by rewrite lookup_insert_eq.
    + rewrite !app_nil_r. simpl.
      apply Forall_fmap, Forall_forall. done.
Qed.
